(** * Safe Streets backend: the request handlers of [app.py]

    A shallow embedding of the four request handlers of [src/app.py]
    ([get_safe_route], [ask_ai], [get_safety_score], [get_real_time_alerts])
    and the statements about them.

    The handlers are Python functions that call external providers, index
    into the decoded JSON payloads the providers return, and raise or catch
    exceptions.  The embedding therefore has three layers:

    - [PyValue]: the Python values a decoded JSON document is made of, with
      the operations the handlers apply to them (truth value, subscripting,
      [==], [<], [>]) and the exceptions those operations raise;
    - [Effects]: a small monad that threads the log of provider calls and
      propagates exceptions, with [try_except];
    - [App]: the handlers, line by line.

    Console output ([print]) is not modelled. *)

From Stdlib Require Import String Ascii List ZArith QArith Bool Lia.
From Stdlib Require Import DecimalString.
Import ListNotations.
Close Scope Q_scope.
Local Open Scope string_scope.
Local Open Scope list_scope.
#[local] Set Warnings "-register-all".

(** ** Python values and exceptions *)

Module PyValue.

(** What [json.loads] builds: [None], [bool], [int], [float], [str], [list]
    and [dict] with string keys.  A [float] is the rational it denotes (the
    number literals of a JSON document are finite); a [str] is its UTF-8
    encoding; a [dict] is the list of its items in insertion order, each key
    once. *)
Inductive value : Type :=
| VNone
| VBool (b : bool)
| VInt (n : Z)
| VFloat (x : Q)
| VStr (s : string)
| VList (items : list value)
| VDict (fields : list (string * value)).

(** The exception classes the handlers tell apart.  Every constructor but
    [HTTPException] carries the text [str(e)] yields; a subclass is filed
    under the nearest class listed here.  [HTTPException] is FastAPI's, a
    subclass of [Exception] like all the others.  These are the exceptions of
    class [Exception] only: [KeyboardInterrupt], [SystemExit] and the other
    classes outside [Exception], which an [except Exception] clause lets
    through, have no counterpart here, and no statement below is about
    them. *)
Inductive exn : Type :=
| ApiError (msg : string)
| IndexError (msg : string)
| KeyError (msg : string)
| TypeError (msg : string)
| AttributeError (msg : string)
| NameError (msg : string)
| HTTPException (status_code : Z) (detail : string)
| OtherException (msg : string).

Inductive result (A : Type) : Type :=
| Return (a : A)
| Raise (e : exn).
Arguments Return {A} a.
Arguments Raise {A} e.

Definition rbind {A B : Type} (r : result A) (k : A -> result B) : result B :=
  match r with
  | Return a => k a
  | Raise e => Raise e
  end.

Notation "'let?' x ':=' r 'in' k" := (rbind r (fun x => k))
  (at level 10, x name, r at level 100, k at level 200).

(** [type(v).__name__] *)
Definition type_name (v : value) : string :=
  match v with
  | VNone => "NoneType"
  | VBool _ => "bool"
  | VInt _ => "int"
  | VFloat _ => "float"
  | VStr _ => "str"
  | VList _ => "list"
  | VDict _ => "dict"
  end.

(** [bool(v)], the test behind [not v] and [if v] *)
Definition truthy (v : value) : bool :=
  match v with
  | VNone => false
  | VBool b => b
  | VInt n => negb (n =? 0)%Z
  | VFloat x => negb (Qeq_bool x 0)
  | VStr s => negb (s =? "")
  | VList items => match items with [] => false | _ :: _ => true end
  | VDict fields => match fields with [] => false | _ :: _ => true end
  end.

Fixpoint dict_get (key : string) (fields : list (string * value)) : option value :=
  match fields with
  | [] => None
  | (k, v) :: rest => if k =? key then Some v else dict_get key rest
  end.

(** The characters of a UTF-8 encoded [str]: a byte in [128, 192) continues
    the character before it. *)
Definition continuation (c : ascii) : bool :=
  let n := N_of_ascii c in ((128 <=? n) && (n <? 192))%N.

Fixpoint chars (s : string) : list string :=
  match s with
  | EmptyString => []
  | String c rest =>
      match chars rest with
      | [] => [String c EmptyString]
      | ch :: more =>
          match rest with
          | String c' _ =>
              if continuation c' then String c ch :: more
              else String c EmptyString :: ch :: more
          | EmptyString => [String c EmptyString]
          end
      end
  end.

(** [v[key]] for a string constant [key] *)
Definition getitem_key (v : value) (key : string) : result value :=
  match v with
  | VDict fields =>
      match dict_get key fields with
      | Some x => Return x
      | None => Raise (KeyError ("'" ++ key ++ "'"))
      end
  | VList _ => Raise (TypeError "list indices must be integers or slices, not str")
  | VStr _ => Raise (TypeError "string indices must be integers, not 'str'")
  | _ => Raise (TypeError ("'" ++ type_name v ++ "' object is not subscriptable"))
  end.

Definition decimal (n : nat) : string :=
  NilZero.string_of_uint (Nat.to_uint n).

(** [v[i]] for an integer constant [i >= 0] *)
Definition getitem_index (v : value) (i : nat) : result value :=
  match v with
  | VList items =>
      match nth_error items i with
      | Some x => Return x
      | None => Raise (IndexError "list index out of range")
      end
  | VStr s =>
      match nth_error (chars s) i with
      | Some ch => Return (VStr ch)
      | None => Raise (IndexError "string index out of range")
      end
  | VDict _ => Raise (KeyError (decimal i))
  | _ => Raise (TypeError ("'" ++ type_name v ++ "' object is not subscriptable"))
  end.

(** [int], [float] and [bool] compare as numbers *)
Definition as_number (v : value) : option Q :=
  match v with
  | VBool b => Some (inject_Z (if b then 1 else 0))
  | VInt n => Some (inject_Z n)
  | VFloat x => Some x
  | _ => None
  end.

Definition Qltb (x y : Q) : bool := negb (Qle_bool y x).

(** [a == b] *)
Fixpoint py_eq (a b : value) {struct a} : bool :=
  match as_number a, as_number b with
  | Some x, Some y => Qeq_bool x y
  | _, _ =>
      match a, b with
      | VNone, VNone => true
      | VStr s, VStr t => (s =? t)
      | VList xs, VList ys =>
          (fix items_eq (xs ys : list value) {struct xs} : bool :=
             match xs, ys with
             | [], [] => true
             | x :: xs', y :: ys' => py_eq x y && items_eq xs' ys'
             | _, _ => false
             end) xs ys
      | VDict d, VDict e =>
          (length d =? length e)%nat &&
          (fix fields_eq (d : list (string * value)) {struct d} : bool :=
             match d with
             | [] => true
             | (k, v) :: d' =>
                 match dict_get k e with
                 | Some w => py_eq v w
                 | None => false
                 end && fields_eq d'
             end) d
      | _, _ => false
      end
  end.

(** The two ordering operators the handlers use *)
Inductive cmpop : Type := OpLt | OpGt.

Definition op_symbol (op : cmpop) : string :=
  match op with OpLt => "<" | OpGt => ">" end.

Definition op_Q (op : cmpop) (x y : Q) : bool :=
  match op with OpLt => Qltb x y | OpGt => Qltb y x end.

Definition op_string (op : cmpop) (s t : string) : bool :=
  match op with OpLt => String.ltb s t | OpGt => String.ltb t s end.

Definition op_nat (op : cmpop) (m n : nat) : bool :=
  match op with OpLt => (m <? n)%nat | OpGt => (n <? m)%nat end.

(** [a < b] and [a > b]: numbers by value, strings by code point, lists by
    their first differing items, anything else a [TypeError]. *)
Fixpoint rich_compare (op : cmpop) (a b : value) {struct a} : result bool :=
  match as_number a, as_number b with
  | Some x, Some y => Return (op_Q op x y)
  | _, _ =>
      match a, b with
      | VStr s, VStr t => Return (op_string op s t)
      | VList xs, VList ys =>
          (fix items_cmp (xs ys : list value) {struct xs} : result bool :=
             match xs, ys with
             | x :: xs', y :: ys' =>
                 if py_eq x y then items_cmp xs' ys' else rich_compare op x y
             | _, _ => Return (op_nat op (length xs) (length ys))
             end) xs ys
      | _, _ =>
          Raise (TypeError ("'" ++ op_symbol op ++ "' not supported between instances of '"
                            ++ type_name a ++ "' and '" ++ type_name b ++ "'"))
      end
  end.

Definition py_lt : value -> value -> result bool := rich_compare OpLt.
Definition py_gt : value -> value -> result bool := rich_compare OpGt.

(** [needle in hay] for two strings *)
Fixpoint contains (needle hay : string) : bool :=
  prefix needle hay ||
  match hay with
  | EmptyString => false
  | String _ rest => contains needle rest
  end.

End PyValue.

(** ** Provider calls, their log, and exceptions *)

Module Effects.
Import PyValue.

(** What [requests.post] hands back: the status code and what [.json()]
    yields (it raises on a body that is not JSON). *)
Record http_reply : Type := {
  status_code : Z;
  json : result value
}.

(** One entry per call to a provider's client. *)
Inductive call : Type :=
| PeliasSearch (text : string)
| Directions (coordinates : list value) (profile format : string)
| ChatCompletionCreate (model : string) (messages : list (string * string))
                       (max_tokens : Z) (temperature : Q)
| RequestsPost (url authorization : string) (payload : value).

(** The providers are external: each answers a call, given the calls made so
    far, with a value or an exception. *)
Record providers : Type := {
  ors_pelias_search : list call -> string -> result value;
  ors_directions : list call -> list value -> string -> string -> result value;
  openai_chat_create :
    list call -> string -> list (string * string) -> Z -> Q -> result value;
  inferell_post : list call -> string -> string -> value -> result http_reply
}.

(** A computation starts from the log of calls made so far and ends with a
    value or an exception, and the log extended by its own calls. *)
Definition M (A : Type) : Type := list call -> result A * list call.

Definition ret {A : Type} (a : A) : M A := fun log => (Return a, log).

Definition raise {A : Type} (e : exn) : M A := fun log => (Raise e, log).

Definition lift {A : Type} (r : result A) : M A := fun log => (r, log).

Definition bind {A B : Type} (m : M A) (k : A -> M B) : M B :=
  fun log =>
    match m log with
    | (Return a, log') => k a log'
    | (Raise e, log') => (Raise e, log')
    end.

(** [try: m  except Exception as e: h e], for handlers that name every class
    they catch by a [match] on [e] and re-raise the rest. *)
Definition try_except {A : Type} (m : M A) (h : exn -> M A) : M A :=
  fun log =>
    match m log with
    | (Return a, log') => (Return a, log')
    | (Raise e, log') => h e log'
    end.

Notation "'let*' x ':=' m 'in' k" := (bind m (fun x => k))
  (at level 10, x name, m at level 100, k at level 200).

Definition perform {A : Type} (c : call) (answer : list call -> result A) : M A :=
  fun log => (answer log, log ++ [c]).

(** What a handler's outcome becomes on the wire: a returned value is the
    body of a 200, an [HTTPException] gives its status with its detail, any
    other exception is the server's 500. *)
Definition respond (r : result value) : Z * value :=
  match r with
  | Return body => (200%Z, body)
  | Raise (HTTPException status detail) => (status, VDict [("detail", VStr detail)])
  | Raise _ => (500%Z, VStr "Internal Server Error")
  end.

End Effects.

(** ** The handlers of [app.py] *)

Module App.
Import PyValue Effects.

(** The pydantic request models *)
Record RouteRequest : Type := {
  origin : string;
  destination : string
}.

Record QueryRequest : Type := {
  question : string
}.

(** The process environment after [load_dotenv()]: what [os.getenv] finds. *)
Record environment : Type := {
  OPENAI_API_KEY : option string;
  ORS_API_KEY : option string;
  INFERELL_API_KEY : option string
}.

(** The names the module binds at import time: lines 1-7 ([import],
    [from ... import]), the assignments of lines 11-21 and the five [def]s.
    No builtin is called [requests]. *)
Definition module_names : list string :=
  [ "os"; "FastAPI"; "HTTPException"; "Query"; "BaseModel"; "openai";
    "openrouteservice"; "load_dotenv"; "CORSMiddleware";
    "ors_key"; "ors_client"; "app"; "origins";
    "RouteRequest"; "QueryRequest";
    "read_root"; "get_safe_route"; "ask_ai"; "get_safety_score";
    "get_real_time_alerts" ].

Definition name_bound (name : string) : bool :=
  existsb (String.eqb name) module_names.

(** Evaluating a global name *)
Definition load_global (name : string) : M unit :=
  if name_bound name then ret tt
  else raise (NameError ("name '" ++ name ++ "' is not defined")).

(** The interpolation [f"{v}"] of what [os.getenv] returned *)
Definition format_getenv (v : option string) : string :=
  match v with
  | Some s => s
  | None => "None"
  end.

(** [not openai.api_key]: the key is [None] or the empty string *)
Definition api_key_missing (key : option string) : bool :=
  match key with
  | None => true
  | Some s => (s =? "")
  end.

(** [obj.name] on the objects the chat provider returns, which expose their
    fields as attributes *)
Definition getattr (obj : value) (name : string) : result value :=
  match obj with
  | VDict fields =>
      match dict_get name fields with
      | Some x => Return x
      | None => Raise (AttributeError name)
      end
  | _ => Raise (AttributeError ("'" ++ type_name obj ++ "' object has no attribute '"
                                ++ name ++ "'"))
  end.

(** [d.get(key, default)] *)
Definition dict_get_default (d : value) (key : string) (default : value) : result value :=
  match d with
  | VDict fields =>
      match dict_get key fields with
      | Some x => Return x
      | None => Return default
      end
  | _ => Raise (AttributeError ("'" ++ type_name d ++ "' object has no attribute 'get'"))
  end.

(** [x['features'][0]['geometry']['coordinates']], lines 56, 57 and 85 *)
Definition first_feature_coordinates (x : value) : result value :=
  let? features := getitem_key x "features" in
  let? feature := getitem_index features 0 in
  let? geometry := getitem_key feature "geometry" in
  getitem_key geometry "coordinates".

(** Lines 90-94: the [alerts] dict; its three values are evaluated in the
    order they are written. *)
Definition simulate_alerts (origin_coords destination_coords : value) : result value :=
  let? o1 := getitem_index origin_coords 1 in
  let? d1 := getitem_index destination_coords 1 in
  let? north := py_gt o1 d1 in
  let? o0 := getitem_index origin_coords 0 in
  let? d0 := getitem_index destination_coords 0 in
  let? west := py_lt o0 d0 in
  let? o1' := getitem_index origin_coords 1 in
  let? d1' := getitem_index destination_coords 1 in
  let? south := py_lt o1' d1' in
  Return (VDict [ ("police_stations", VInt (if north then 3 else 2));
                  ("public_facilities", VInt (if west then 5 else 3));
                  ("crowd_density", VStr (if south then "High" else "Medium")) ]).

Definition not_found_coordinates : string :=
  "Could not find valid coordinates for the specified addresses.".

Definition not_found_remote : string :=
  "Could not find a route to the specified destination. It may be too remote for routing.".

Definition not_found_route : string :=
  "No route found between the specified locations.".

Section Handlers.

(** The external providers and the environment the process runs in. *)
Variable P : providers.
Variable env : environment.

(** [str(e)] of an [HTTPException] with the given status and detail; what it
    yields depends on the installed Starlette. *)
Variable http_exception_str : Z -> string -> string.

(** [str.strip] *)
Variable str_strip : string -> string.

(** [str(e)] *)
Definition str_exn (e : exn) : string :=
  match e with
  | ApiError msg | IndexError msg | KeyError msg | TypeError msg
  | AttributeError msg | NameError msg | OtherException msg => msg
  | HTTPException status detail => http_exception_str status detail
  end.

Definition pelias_search (text : string) : M value :=
  perform (PeliasSearch text) (fun log => ors_pelias_search P log text).

Definition directions (coordinates : list value) (profile format : string) : M value :=
  perform (Directions coordinates profile format)
          (fun log => ors_directions P log coordinates profile format).

Definition chat_completion_create (model : string) (messages : list (string * string))
    (max_tokens : Z) (temperature : Q) : M value :=
  perform (ChatCompletionCreate model messages max_tokens temperature)
          (fun log => openai_chat_create P log model messages max_tokens temperature).

Definition requests_post (url authorization : string) (payload : value) : M http_reply :=
  perform (RequestsPost url authorization payload)
          (fun log => inferell_post P log url authorization payload).

(** Line 41 *)
Definition read_root : M value :=
  ret (VDict [("message", VStr "Welcome to the Safe Streets API")]).

(** Line 52: [not a['features'] or not b['features']]; [or] does not
    evaluate its right operand when the left one holds. *)
Definition missing_features (origin_search destination_search : value) : result bool :=
  let? origin_features := getitem_key origin_search "features" in
  if negb (truthy origin_features) then Return true
  else
    let? destination_features := getitem_key destination_search "features" in
    Return (negb (truthy destination_features)).

(** Lines 69-79: the handler of the inner [try]; it catches [ApiError]
    only. *)
Definition directions_except (e : exn) : M value :=
  match e with
  | ApiError error_message =>
      if contains "Could not find routable point within a radius" error_message
      then raise (HTTPException 404 not_found_remote)
      else raise (HTTPException 500 ("Error generating route: " ++ error_message))
  | _ => raise e
  end.

(** Lines 47-101: the body of the outer [try] *)
Definition get_safe_route_body (route_request : RouteRequest) : M value :=
  let* origin_search := pelias_search (origin route_request) in
  let* destination_search := pelias_search (destination route_request) in
  let* missing := lift (missing_features origin_search destination_search) in
  if missing then raise (HTTPException 404 not_found_coordinates)
  else
    let* origin_coords := lift (first_feature_coordinates origin_search) in
    let* destination_coords := lift (first_feature_coordinates destination_search) in
    let* routes :=
      try_except
        (directions [origin_coords; destination_coords] "driving-car" "geojson")
        directions_except in
    let* route_features := lift (getitem_key routes "features") in
    if negb (truthy route_features) then raise (HTTPException 404 not_found_route)
    else
      let* route_coords := lift (first_feature_coordinates routes) in
      let* alerts := lift (simulate_alerts origin_coords destination_coords) in
      ret (VDict
             [ ("origin", VDict [ ("address", VStr (origin route_request));
                                  ("coordinates", origin_coords) ]);
               ("destination", VDict [ ("address", VStr (destination route_request));
                                       ("coordinates", destination_coords) ]);
               ("route", route_coords);
               ("alerts", alerts) ]).

(** Lines 102-108: the three [except] clauses of the outer [try], tried in
    order: [ApiError], [IndexError], [Exception]. *)
Definition get_safe_route_except (e : exn) : M value :=
  match e with
  | ApiError msg => raise (HTTPException 500 ("Error generating route: " ++ msg))
  | IndexError _ => raise (HTTPException 404 not_found_coordinates)
  | _ => raise (HTTPException 500 ("Unexpected error occurred: " ++ str_exn e))
  end.

(** [POST /get-safe-route] *)
Definition get_safe_route (route_request : RouteRequest) : M value :=
  try_except (get_safe_route_body route_request) get_safe_route_except.

Definition system_prompt : string :=
  "You are a women's safety advisor with expertise in urban navigation, personal security, and emergency assistance.".

(** Lines 116-135: the body of the [try] of [ask_ai] *)
Definition ask_ai_body (query_request : QueryRequest) : M value :=
  if api_key_missing (OPENAI_API_KEY env)
  then raise (HTTPException 500 "OpenAI API key is not set.")
  else
    let messages := [ ("system", system_prompt); ("user", question query_request) ] in
    let* response := chat_completion_create "gpt-4o" messages 150 (7 # 10) in
    let* choices := lift (getattr response "choices") in
    let* choice := lift (getitem_index choices 0) in
    let* message := lift (getattr choice "message") in
    let* content := lift (getattr message "content") in
    match content with
    | VStr text => ret (VDict [("response", VStr (str_strip text))])
    | _ => raise (AttributeError ("'" ++ type_name content
                                  ++ "' object has no attribute 'strip'"))
    end.

(** [POST /ask-ai] *)
Definition ask_ai (query_request : QueryRequest) : M value :=
  try_except (ask_ai_body query_request)
    (fun e => raise (HTTPException 500 ("Unexpected error with AI response: " ++ str_exn e))).

(** Lines 148-163: the body of the [try] of [get_safety_score].  The callee
    [requests.post] is evaluated before its arguments. *)
Definition get_safety_score_body (route : list value) : M value :=
  let payload := VDict [("route", VList route)] in
  let* _ := load_global "requests" in
  let* inferell_response :=
    requests_post "https://api.inferell.ai/v1/safety_score"
                  ("Bearer " ++ format_getenv (INFERELL_API_KEY env)) payload in
  if (status_code inferell_response =? 200)%Z then
    let* safety_data := lift (json inferell_response) in
    let* score := lift (dict_get_default safety_data "score" (VStr "N/A")) in
    ret (VDict [("safety_score", score)])
  else ret (VDict [("safety_score", VStr "Error fetching safety score")]).

(** [POST /get-safety-score] *)
Definition get_safety_score (route : list value) : M value :=
  try_except (get_safety_score_body route)
    (fun _ => raise (HTTPException 500 "Could not fetch safety score.")).

(** [GET /alerts] *)
Definition get_real_time_alerts : M value :=
  ret (VDict [ ("police_stations", VInt 2);
               ("public_facilities", VInt 5);
               ("crowd_density", VStr "Medium") ]).

End Handlers.

End App.

(** ** Sample providers

    Provider doubles for the concrete runs below: the geocoder answers the
    first search with one reply and every later search with another; the
    router, the chat provider and the scoring endpoint answer every call
    alike. *)

Module Samples.
Import PyValue Effects App.

Definition sample_providers (origin_reply destination_reply route_reply : result value)
    (chat_reply : result value) (score_reply : result http_reply) : providers :=
  {| ors_pelias_search := fun log _ =>
       match log with
       | [] => origin_reply
       | _ :: _ => destination_reply
       end;
     ors_directions := fun _ _ _ _ => route_reply;
     openai_chat_create := fun _ _ _ _ _ => chat_reply;
     inferell_post := fun _ _ _ _ => score_reply |}.

(** A GeoJSON feature collection with one point feature per coordinate pair *)
Definition feature (coordinates : value) : value :=
  VDict [ ("type", VStr "Feature");
          ("geometry", VDict [ ("type", VStr "Point"); ("coordinates", coordinates) ]) ].

Definition collection (features : list value) : value :=
  VDict [ ("type", VStr "FeatureCollection"); ("features", VList features) ].

Definition point (longitude latitude : Q) : value :=
  VList [VFloat longitude; VFloat latitude].

Definition times_square : value := point (-739857 # 10000) (407484 # 10000).
Definition central_park : value := point (-739654 # 10000) (407829 # 10000).

Definition line : value := VList [times_square; central_park].
Definition detour : value := VList [central_park; times_square; central_park].

Definition chat_unused : result value := Raise (OtherException "chat provider not configured").
Definition score_unused : result http_reply := Raise (OtherException "connection refused").

(** Geocoding and routing both succeed. *)
Definition city : providers :=
  sample_providers (Return (collection [feature times_square]))
                   (Return (collection [feature central_park]))
                   (Return (collection [feature line]))
                   chat_unused score_unused.

(** As [city], with a second route feature behind the first. *)
Definition city_two_routes : providers :=
  sample_providers (Return (collection [feature times_square]))
                   (Return (collection [feature central_park]))
                   (Return (collection [feature line; feature detour]))
                   chat_unused score_unused.

(** Both addresses geocode to the same point. *)
Definition same_place : providers :=
  sample_providers (Return (collection [feature times_square]))
                   (Return (collection [feature times_square]))
                   (Return (collection [feature line]))
                   chat_unused score_unused.

(** The geocoder finds nothing for the origin. *)
Definition unknown_origin : providers :=
  sample_providers (Return (collection []))
                   (Return (collection [feature central_park]))
                   (Return (collection [feature line]))
                   chat_unused score_unused.

(** The geocoder finds nothing for the destination. *)
Definition unknown_destination : providers :=
  sample_providers (Return (collection [feature times_square]))
                   (Return (collection []))
                   (Return (collection [feature line]))
                   chat_unused score_unused.

(** The origin's first feature carries a longitude and no latitude. *)
Definition short_coordinates : providers :=
  sample_providers (Return (collection [feature (VList [VFloat (-739857 # 10000)])]))
                   (Return (collection [feature central_park]))
                   (Return (collection [feature line]))
                   chat_unused score_unused.

(** The geocoder's reply has no [features] key. *)
Definition malformed_geocoding : providers :=
  sample_providers (Return (VDict [("error", VStr "bad request")]))
                   (Return (collection [feature central_park]))
                   (Return (collection [feature line]))
                   chat_unused score_unused.

(** The router rejects the request with the given [str(e)]. *)
Definition routing_error (msg : string) : providers :=
  sample_providers (Return (collection [feature times_square]))
                   (Return (collection [feature central_park]))
                   (Raise (ApiError msg))
                   chat_unused score_unused.

Definition remote_message : string :=
  "404 ({'error': {'code': 2010, 'message': 'Could not find routable point within a radius of 350.0 meters of specified coordinate 1: 0.0000000 0.0000000.'}})".

Definition quota_message : string :=
  "403 ({'error': 'Daily quota reached or API key unauthorized'})".

(** The scoring endpoint would answer with the given status and body. *)
Definition scoring (status : Z) (body : result value) : providers :=
  sample_providers (Return (collection [])) (Return (collection []))
                   (Return (collection []))
                   chat_unused
                   (Return {| status_code := status; json := body |}).

Definition no_keys : environment :=
  {| OPENAI_API_KEY := None; ORS_API_KEY := None; INFERELL_API_KEY := None |}.

Definition nyc : RouteRequest :=
  {| origin := "Times Square, NYC"; destination := "Central Park, NYC" |}.

Definition nyc_calls : list call :=
  [ PeliasSearch "Times Square, NYC"; PeliasSearch "Central Park, NYC";
    Directions [times_square; central_park] "driving-car" "geojson" ].

Definition nyc_response : value :=
  VDict [ ("origin", VDict [ ("address", VStr "Times Square, NYC");
                             ("coordinates", times_square) ]);
          ("destination", VDict [ ("address", VStr "Central Park, NYC");
                                  ("coordinates", central_park) ]);
          ("route", line);
          ("alerts", VDict [ ("police_stations", VInt 2);
                             ("public_facilities", VInt 5);
                             ("crowd_density", VStr "High") ]) ].

(** [str(e)] of an [HTTPException] in a Starlette that defines [__str__]:
    the status, a colon, the detail. *)
Definition status_colon_detail (status : Z) (detail : string) : string :=
  NilZero.string_of_int (Z.to_int status) ++ ": " ++ detail.

(** [str(e)] of an [HTTPException] in a Starlette that does not: the
    exception was built from keyword arguments only, so its [args] are
    empty. *)
Definition empty_str (status : Z) (detail : string) : string := "".

(** [str.strip] on the texts that carry no surrounding white space *)
Definition strip_trimmed (s : string) : string := s.

(** The router answers with a collection without features. *)
Definition no_route : providers :=
  sample_providers (Return (collection [feature times_square]))
                   (Return (collection [feature central_park]))
                   (Return (collection []))
                   chat_unused score_unused.

(** The router raises an exception of the given class. *)
Definition routing_raises (e : exn) : providers :=
  sample_providers (Return (collection [feature times_square]))
                   (Return (collection [feature central_park]))
                   (Raise e)
                   chat_unused score_unused.

(** The geocoder rejects the first search. *)
Definition origin_search_error (msg : string) : providers :=
  sample_providers (Raise (ApiError msg))
                   (Return (collection [feature central_park]))
                   (Return (collection [feature line]))
                   chat_unused score_unused.

(** The geocoder rejects the second search. *)
Definition destination_search_error (msg : string) : providers :=
  sample_providers (Return (collection [feature times_square]))
                   (Raise (ApiError msg))
                   (Return (collection [feature line]))
                   chat_unused score_unused.

(** The geocoder answers the first search with [features: null]. *)
Definition null_features : providers :=
  sample_providers (Return (VDict [("features", VNone)]))
                   (Return (collection [feature central_park]))
                   (Return (collection [feature line]))
                   chat_unused score_unused.

(** As [city], with further matches behind the first one of each search. *)
Definition city_many_matches : providers :=
  sample_providers (Return (collection [feature times_square; feature central_park]))
                   (Return (collection [feature central_park; feature times_square]))
                   (Return (collection [feature line]))
                   chat_unused score_unused.

(** A chat completion with the given choices *)
Definition completion (choices : list value) : value :=
  VDict [ ("object", VStr "chat.completion"); ("choices", VList choices) ].

Definition choice (content : value) : value :=
  VDict [ ("index", VInt 0);
          ("message", VDict [ ("role", VStr "assistant"); ("content", content) ]) ].

(** The chat provider answers every call with the given outcome. *)
Definition chatting (chat_reply : result value) : providers :=
  sample_providers (Return (collection [])) (Return (collection []))
                   (Return (collection []))
                   chat_reply score_unused.

Definition with_key : environment :=
  {| OPENAI_API_KEY := Some "sk-test"; ORS_API_KEY := None; INFERELL_API_KEY := None |}.

Definition walk_home : QueryRequest := {| question := "Is it safe to walk home?" |}.

Definition walk_home_call : call :=
  ChatCompletionCreate "gpt-4o"
    [ ("system", system_prompt); ("user", "Is it safe to walk home?") ] 150 (7 # 10).

End Samples.

(** * Properties *)

Import PyValue Effects App Samples.

(** ** The monad *)

Lemma bind_Return_inv {A B : Type} (m : M A) (k : A -> M B) log b log' :
  bind m k log = (Return b, log') ->
  exists a log1, m log = (Return a, log1) /\ k a log1 = (Return b, log').
Proof.
  unfold bind. destruct (m log) as [[a | e] log1]; intro H.
  - exists a, log1. split; [reflexivity | exact H].
  - discriminate H.
Qed.

Lemma lift_Return_inv {A : Type} (r : result A) log a log' :
  lift r log = (Return a, log') -> r = Return a /\ log' = log.
Proof. unfold lift. intro H. inversion H. split; reflexivity. Qed.

Lemma perform_Return_inv {A : Type} c (answer : list call -> result A) log a log' :
  perform c answer log = (Return a, log') ->
  answer log = Return a /\ log' = log ++ [c].
Proof. unfold perform. intro H. inversion H. split; reflexivity. Qed.

Lemma rbind_Return_inv {A B : Type} (r : result A) (k : A -> result B) b :
  rbind r k = Return b -> exists a, r = Return a /\ k a = Return b.
Proof.
  destruct r as [a | e]; simpl; intro H.
  - exists a. split; [reflexivity | exact H].
  - discriminate H.
Qed.

(** The outer handler of [get_safe_route] always raises. *)
Lemma get_safe_route_except_raises str e log :
  exists status detail,
    get_safe_route_except str e log = (Raise (HTTPException status detail), log).
Proof.
  destruct e; simpl; unfold raise; eauto.
Qed.

(** The inner handler always raises, too. *)
Lemma directions_except_raises e log :
  exists e', directions_except e log = (Raise e', log).
Proof.
  destruct e; simpl; unfold raise; eauto.
  destruct (contains _ _); eauto.
Qed.

(** A call that returns a response went through the body of the [try]. *)
Lemma get_safe_route_Return P str req log resp log' :
  get_safe_route P str req log = (Return resp, log') ->
  get_safe_route_body P req log = (Return resp, log').
Proof.
  unfold get_safe_route, try_except.
  destruct (get_safe_route_body P req log) as [[a | e] log1]; intro H.
  - exact H.
  - destruct (get_safe_route_except_raises str e log1) as (s & d & E).
    rewrite E in H. discriminate H.
Qed.

(** What the body did when it returned: both searches and the routing call
    answered, the first features had coordinates, and the response was
    assembled from them. *)
Lemma get_safe_route_body_Return P req log resp log' :
  get_safe_route_body P req log = (Return resp, log') ->
  exists origin_search destination_search origin_coords destination_coords
         routes route_coords alerts,
    let log1 := log ++ [PeliasSearch (origin req)] in
    let log2 := log1 ++ [PeliasSearch (destination req)] in
    let coordinates := [origin_coords; destination_coords] in
    ors_pelias_search P log (origin req) = Return origin_search /\
    ors_pelias_search P log1 (destination req) = Return destination_search /\
    missing_features origin_search destination_search = Return false /\
    first_feature_coordinates origin_search = Return origin_coords /\
    first_feature_coordinates destination_search = Return destination_coords /\
    ors_directions P log2 coordinates "driving-car" "geojson" = Return routes /\
    first_feature_coordinates routes = Return route_coords /\
    simulate_alerts origin_coords destination_coords = Return alerts /\
    resp = VDict
             [ ("origin", VDict [ ("address", VStr (origin req));
                                  ("coordinates", origin_coords) ]);
               ("destination", VDict [ ("address", VStr (destination req));
                                       ("coordinates", destination_coords) ]);
               ("route", route_coords);
               ("alerts", alerts) ] /\
    log' = log2 ++ [Directions coordinates "driving-car" "geojson"].
Proof.
  unfold get_safe_route_body. intro H.
  apply bind_Return_inv in H. destruct H as (osearch & l1 & Ho & H).
  apply perform_Return_inv in Ho. destruct Ho as [Ho ->].
  apply bind_Return_inv in H. destruct H as (dsearch & l2 & Hd & H).
  apply perform_Return_inv in Hd. destruct Hd as [Hd ->].
  apply bind_Return_inv in H. destruct H as (missing & l3 & Hm & H).
  apply lift_Return_inv in Hm. destruct Hm as [Hm ->].
  destruct missing; [discriminate H |].
  apply bind_Return_inv in H. destruct H as (ocoords & l4 & Hoc & H).
  apply lift_Return_inv in Hoc. destruct Hoc as [Hoc ->].
  apply bind_Return_inv in H. destruct H as (dcoords & l5 & Hdc & H).
  apply lift_Return_inv in Hdc. destruct Hdc as [Hdc ->].
  apply bind_Return_inv in H. destruct H as (routes & l6 & Hr & H).
  unfold try_except, directions, perform in Hr.
  destruct (ors_directions P _ _ _ _) as [r | e] eqn:Hdir.
  2:{ match type of Hr with
      | directions_except ?x ?l = _ =>
          destruct (directions_except_raises x l) as (e' & E)
      end.
      rewrite E in Hr. discriminate Hr. }
  inversion Hr; subst r l6; clear Hr.
  apply bind_Return_inv in H. destruct H as (rfeatures & l7 & Hrf & H).
  apply lift_Return_inv in Hrf. destruct Hrf as [Hrf ->].
  destruct (negb (truthy rfeatures)); [discriminate H |].
  apply bind_Return_inv in H. destruct H as (rcoords & l8 & Hrc & H).
  apply lift_Return_inv in Hrc. destruct Hrc as [Hrc ->].
  apply bind_Return_inv in H. destruct H as (alerts & l9 & Ha & H).
  apply lift_Return_inv in Ha. destruct Ha as [Ha ->].
  unfold ret in H. inversion H; subst.
  exists osearch, dsearch, ocoords, dcoords, routes, rcoords, alerts.
  cbv zeta. repeat split; assumption.
Qed.

(** Resolves a hypothesis [e = Return x] whose left side evaluates. *)
Ltac settle H :=
  vm_compute in H; injection H; clear H; intros; subst.

(** ** Comparisons *)

Lemma Qltb_equal x y : Qeq_bool x y = true -> Qltb x y = false /\ Qltb y x = false.
Proof.
  intro H. apply Qeq_bool_iff in H. unfold Qltb.
  split; apply negb_false_iff, Qle_bool_iff; rewrite H; apply Qle_refl.
Qed.

Lemma string_ltb_irrefl s : String.ltb s s = false.
Proof.
  unfold String.ltb.
  pose proof (String.compare_antisym s s) as E.
  destruct (String.compare s s); try reflexivity.
  discriminate E.
Qed.

(** Two lists that are equal item by item are ordered neither way. *)
Lemma items_equal_unordered op xs : forall ys c,
  (fix items_eq (xs ys : list value) {struct xs} : bool :=
     match xs, ys with
     | [], [] => true
     | x :: xs', y :: ys' => py_eq x y && items_eq xs' ys'
     | _, _ => false
     end) xs ys = true ->
  (fix items_cmp (xs ys : list value) {struct xs} : result bool :=
     match xs, ys with
     | x :: xs', y :: ys' =>
         if py_eq x y then items_cmp xs' ys' else rich_compare op x y
     | _, _ => Return (op_nat op (length xs) (length ys))
     end) xs ys = Return c ->
  c = false.
Proof.
  induction xs as [| x xs IH]; intros [| y ys] c Heq Hcmp; try discriminate Heq.
  - destruct op; inversion Hcmp; reflexivity.
  - apply andb_true_iff in Heq. destruct Heq as [Hxy Hrest].
    rewrite Hxy in Hcmp. exact (IH ys c Hrest Hcmp).
Qed.

(** A tie: when [a == b] holds, neither [a < b] nor [a > b] does. *)
Lemma rich_compare_equal op a b c :
  py_eq a b = true -> rich_compare op a b = Return c -> c = false.
Proof.
  destruct a, b; simpl; intros Heq Hcmp;
    try discriminate Heq; try discriminate Hcmp;
    try (destruct (Qltb_equal _ _ Heq) as [H1 H2];
         destruct op; simpl in Hcmp; inversion Hcmp; congruence).
  - apply String.eqb_eq in Heq. subst.
    destruct op; simpl in Hcmp; inversion Hcmp; apply string_ltb_irrefl.
  - exact (items_equal_unordered op items items0 c Heq Hcmp).
Qed.

(** What [simulate_alerts] computed when it returned. *)
Lemma simulate_alerts_Return origin_coords destination_coords alerts :
  simulate_alerts origin_coords destination_coords = Return alerts ->
  exists olon olat dlon dlat north west south,
    getitem_index origin_coords 0 = Return olon /\
    getitem_index origin_coords 1 = Return olat /\
    getitem_index destination_coords 0 = Return dlon /\
    getitem_index destination_coords 1 = Return dlat /\
    py_gt olat dlat = Return north /\
    py_lt olon dlon = Return west /\
    py_lt olat dlat = Return south /\
    alerts = VDict [ ("police_stations", VInt (if north then 3 else 2));
                     ("public_facilities", VInt (if west then 5 else 3));
                     ("crowd_density", VStr (if south then "High" else "Medium")) ].
Proof.
  unfold simulate_alerts. intro H.
  apply rbind_Return_inv in H. destruct H as (o1 & Ho1 & H).
  apply rbind_Return_inv in H. destruct H as (d1 & Hd1 & H).
  apply rbind_Return_inv in H. destruct H as (north & Hn & H).
  apply rbind_Return_inv in H. destruct H as (o0 & Ho0 & H).
  apply rbind_Return_inv in H. destruct H as (d0 & Hd0 & H).
  apply rbind_Return_inv in H. destruct H as (west & Hw & H).
  apply rbind_Return_inv in H. destruct H as (o1' & Ho1' & H).
  apply rbind_Return_inv in H. destruct H as (d1' & Hd1' & H).
  apply rbind_Return_inv in H. destruct H as (south & Hs & H).
  assert (o1' = o1) by congruence. assert (d1' = d1) by congruence. subst o1' d1'.
  inversion H.
  exists o0, o1, d0, d1, north, west, south.
  repeat split; assumption.
Qed.

(** ** C1: the alerts of a returned route *)

(** C1.  Whenever [get_safe_route] returns a response, its [alerts] entry
    is computed from the coordinates of the first feature of the two
    geocoding replies and from nothing else: [police_stations] is 3 when the
    origin's latitude (index 1) [>] the destination's and 2 otherwise,
    [public_facilities] is 5 when the origin's longitude (index 0) [<] the
    destination's and 3 otherwise, [crowd_density] is "High" when the
    origin's latitude [<] the destination's and "Medium" otherwise.  On a
    tie the [else] value is taken: equal latitudes give 2 and "Medium",
    equal longitudes give 3. *)
Theorem alerts_from_first_feature_coordinates P str req log resp log' :
  get_safe_route P str req log = (Return resp, log') ->
  exists origin_search destination_search origin_coords destination_coords
         olon olat dlon dlat north west south,
    ors_pelias_search P log (origin req) = Return origin_search /\
    ors_pelias_search P (log ++ [PeliasSearch (origin req)]) (destination req)
      = Return destination_search /\
    first_feature_coordinates origin_search = Return origin_coords /\
    first_feature_coordinates destination_search = Return destination_coords /\
    getitem_index origin_coords 0 = Return olon /\
    getitem_index origin_coords 1 = Return olat /\
    getitem_index destination_coords 0 = Return dlon /\
    getitem_index destination_coords 1 = Return dlat /\
    py_gt olat dlat = Return north /\
    py_lt olon dlon = Return west /\
    py_lt olat dlat = Return south /\
    getitem_key resp "alerts" =
      Return (VDict [ ("police_stations", VInt (if north then 3 else 2));
                      ("public_facilities", VInt (if west then 5 else 3));
                      ("crowd_density", VStr (if south then "High" else "Medium")) ]) /\
    (py_eq olat dlat = true ->
     getitem_key resp "alerts" =
       Return (VDict [ ("police_stations", VInt 2);
                       ("public_facilities", VInt (if west then 5 else 3));
                       ("crowd_density", VStr "Medium") ])) /\
    (py_eq olon dlon = true ->
     getitem_key resp "alerts" =
       Return (VDict [ ("police_stations", VInt (if north then 3 else 2));
                       ("public_facilities", VInt 3);
                       ("crowd_density", VStr (if south then "High" else "Medium")) ])).
Proof.
  intro H. apply get_safe_route_Return, get_safe_route_body_Return in H.
  destruct H as (osearch & dsearch & ocoords & dcoords & routes & rcoords & alerts & H).
  cbv zeta in H.
  destruct H as (Ho & Hd & _ & Hoc & Hdc & _ & _ & Ha & -> & _).
  apply simulate_alerts_Return in Ha.
  destruct Ha as (olon & olat & dlon & dlat & north & west & south
                  & Ho0 & Ho1 & Hd0 & Hd1 & Hn & Hw & Hs & ->).
  exists osearch, dsearch, ocoords, dcoords, olon, olat, dlon, dlat, north, west, south.
  repeat (split; [assumption |]).
  split; [reflexivity |].
  split; intro Htie.
  - rewrite (rich_compare_equal OpGt olat dlat north Htie Hn).
    rewrite (rich_compare_equal OpLt olat dlat south Htie Hs).
    reflexivity.
  - rewrite (rich_compare_equal OpLt olon dlon west Htie Hw).
    reflexivity.
Qed.

(** The theorem above at the sample request, Times Square to Central Park:
    the example of the specification, origin (-73.9857, 40.7484) and
    destination (-73.9654, 40.7829). *)
Lemma alerts_from_first_feature_coordinates_nyc :
  get_safe_route city status_colon_detail nyc [] = (Return nyc_response, nyc_calls) /\
  exists north west south,
    py_gt (VFloat (407484 # 10000)) (VFloat (407829 # 10000)) = Return north /\
    py_lt (VFloat (-739857 # 10000)) (VFloat (-739654 # 10000)) = Return west /\
    py_lt (VFloat (407484 # 10000)) (VFloat (407829 # 10000)) = Return south /\
    getitem_key nyc_response "alerts" =
      Return (VDict [ ("police_stations", VInt (if north then 3 else 2));
                      ("public_facilities", VInt (if west then 5 else 3));
                      ("crowd_density", VStr (if south then "High" else "Medium")) ]).
Proof.
  assert (Hrun : get_safe_route city status_colon_detail nyc []
                 = (Return nyc_response, nyc_calls)) by (vm_compute; reflexivity).
  split; [exact Hrun |].
  destruct (alerts_from_first_feature_coordinates _ _ _ _ _ _ Hrun)
    as (osearch & dsearch & ocoords & dcoords & olon & olat & dlon & dlat
        & north & west & south
        & Ho & Hd & Hoc & Hdc & Ho0 & Ho1 & Hd0 & Hd1 & Hn & Hw & Hs & Ha & _).
  settle Ho. settle Hd. settle Hoc. settle Hdc.
  settle Ho0. settle Ho1. settle Hd0. settle Hd1.
  exists north, west, south. repeat split; assumption.
Defined.

(** A tie on both axes: every entry takes its [else] value. *)
Example same_place_alerts :
  (let? resp := fst (get_safe_route same_place status_colon_detail nyc []) in
   getitem_key resp "alerts")
  = Return (VDict [ ("police_stations", VInt 2);
                    ("public_facilities", VInt 3);
                    ("crowd_density", VStr "Medium") ]).
Proof. vm_compute. reflexivity. Qed.

(** ** C10: the addresses of a returned route *)

(** C10.  Whenever [get_safe_route] returns a response, the [address] under
    [origin] and the one under [destination] are the request's [origin] and
    [destination] strings themselves, whatever the geocoder replied. *)
Theorem addresses_echo_the_request P str req log resp log' :
  get_safe_route P str req log = (Return resp, log') ->
  exists origin_entry destination_entry,
    getitem_key resp "origin" = Return origin_entry /\
    getitem_key origin_entry "address" = Return (VStr (origin req)) /\
    getitem_key resp "destination" = Return destination_entry /\
    getitem_key destination_entry "address" = Return (VStr (destination req)).
Proof.
  intro H. apply get_safe_route_Return, get_safe_route_body_Return in H.
  destruct H as (osearch & dsearch & ocoords & dcoords & routes & rcoords & alerts & H).
  cbv zeta in H. destruct H as (_ & _ & _ & _ & _ & _ & _ & _ & -> & _).
  exists (VDict [("address", VStr (origin req)); ("coordinates", ocoords)]),
         (VDict [("address", VStr (destination req)); ("coordinates", dcoords)]).
  repeat split; reflexivity.
Qed.

(** The theorem above at the sample request. *)
Lemma addresses_echo_the_request_nyc :
  get_safe_route city status_colon_detail nyc [] = (Return nyc_response, nyc_calls) /\
  exists origin_entry destination_entry,
    getitem_key nyc_response "origin" = Return origin_entry /\
    getitem_key origin_entry "address" = Return (VStr "Times Square, NYC") /\
    getitem_key nyc_response "destination" = Return destination_entry /\
    getitem_key destination_entry "address" = Return (VStr "Central Park, NYC").
Proof.
  assert (Hrun : get_safe_route city status_colon_detail nyc []
                 = (Return nyc_response, nyc_calls)) by (vm_compute; reflexivity).
  split; [exact Hrun |].
  exact (addresses_echo_the_request _ _ _ _ _ _ Hrun).
Defined.

(** ** C7: the route of a returned response *)

(** The coordinates of the first feature of a reply whose [features] is a
    list depend on the head of that list alone. *)
Lemma first_feature_coordinates_head x first rest :
  getitem_key x "features" = Return (VList (first :: rest)) ->
  first_feature_coordinates x =
    (let? geometry := getitem_key first "geometry" in
     getitem_key geometry "coordinates").
Proof. unfold first_feature_coordinates. intros ->. reflexivity. Qed.

(** A reply with coordinates for its first feature has a non-empty list
    under [features]. *)
Lemma first_feature_coordinates_Return x coords :
  first_feature_coordinates x = Return coords ->
  exists first rest geometry,
    getitem_key x "features" = Return (VList (first :: rest)) /\
    getitem_key first "geometry" = Return geometry /\
    getitem_key geometry "coordinates" = Return coords.
Proof.
  unfold first_feature_coordinates. intro H.
  apply rbind_Return_inv in H. destruct H as (features & Hf & H).
  apply rbind_Return_inv in H. destruct H as (feature & H0 & H).
  apply rbind_Return_inv in H. destruct H as (geometry & Hg & H).
  destruct features as [ | | | | s | items | fields]; try discriminate H0.
  - (* a string: its first character has no ['geometry'] *)
    unfold getitem_index in H0.
    destruct (nth_error (chars s) 0); [| discriminate H0].
    inversion H0; subst feature. simpl in Hg. discriminate Hg.
  - destruct items as [| first rest]; [discriminate H0 |].
    simpl in H0. inversion H0; subst feature.
    exists first, rest, geometry. repeat split; assumption.
Qed.

(** C7.  Whenever [get_safe_route] returns a response, its [route] entry is
    the [coordinates] of the [geometry] of the first feature of the routing
    reply; and two routers whose replies differ only behind the first
    feature lead to the same outcome. *)
Theorem route_is_first_feature_geometry P str req log :
  (forall resp log',
     get_safe_route P str req log = (Return resp, log') ->
     exists origin_coords destination_coords routes first rest geometry route_coords,
       ors_directions P (log ++ [PeliasSearch (origin req)]
                             ++ [PeliasSearch (destination req)])
                      [origin_coords; destination_coords] "driving-car" "geojson"
         = Return routes /\
       getitem_key routes "features" = Return (VList (first :: rest)) /\
       getitem_key first "geometry" = Return geometry /\
       getitem_key geometry "coordinates" = Return route_coords /\
       getitem_key resp "route" = Return route_coords) /\
  (forall P',
     (forall l text, ors_pelias_search P' l text = ors_pelias_search P l text) ->
     (forall l coordinates profile format,
        ors_directions P' l coordinates profile format
          = ors_directions P l coordinates profile format \/
        exists routes' routes first rest' rest,
          ors_directions P' l coordinates profile format = Return routes' /\
          ors_directions P l coordinates profile format = Return routes /\
          getitem_key routes' "features" = Return (VList (first :: rest')) /\
          getitem_key routes "features" = Return (VList (first :: rest))) ->
     get_safe_route P' str req log = get_safe_route P str req log).
Proof.
  split.
  - intros resp log' H.
    apply get_safe_route_Return, get_safe_route_body_Return in H.
    destruct H as (osearch & dsearch & ocoords & dcoords & routes & rcoords & alerts & H).
    cbv zeta in H. destruct H as (_ & _ & _ & _ & _ & Hdir & Hrc & _ & -> & _).
    apply first_feature_coordinates_Return in Hrc.
    destruct Hrc as (first & rest & geometry & Hf & Hg & Hc).
    exists ocoords, dcoords, routes, first, rest, geometry, rcoords.
    rewrite app_assoc. repeat split; assumption.
  - intros P' Hsearch Hdir.
    unfold get_safe_route, try_except.
    assert (E : get_safe_route_body P' req log = get_safe_route_body P req log);
      [| rewrite E; reflexivity].
    unfold get_safe_route_body, bind, pelias_search, perform, lift.
    rewrite !Hsearch.
    destruct (ors_pelias_search P log (origin req)) as [osearch |]; [| reflexivity].
    destruct (ors_pelias_search P _ (destination req)) as [dsearch |]; [| reflexivity].
    destruct (missing_features osearch dsearch) as [[|] |]; try reflexivity.
    destruct (first_feature_coordinates osearch) as [ocoords |]; [| reflexivity].
    destruct (first_feature_coordinates dsearch) as [dcoords |]; [| reflexivity].
    unfold try_except, directions, perform.
    destruct (Hdir ((log ++ [PeliasSearch (origin req)])
                    ++ [PeliasSearch (destination req)])
                   [ocoords; dcoords] "driving-car" "geojson")
      as [Esame | (routes' & routes & first & rest' & rest & E' & E0 & F' & F0)].
    + rewrite Esame. reflexivity.
    + rewrite E', E0, F', F0.
      rewrite (first_feature_coordinates_head routes' first rest' F').
      rewrite (first_feature_coordinates_head routes first rest F0).
      reflexivity.
Qed.

(** The theorem above at the sample request: the route is the first
    feature's line, with or without a second feature behind it. *)
Lemma route_is_first_feature_geometry_nyc :
  get_safe_route city status_colon_detail nyc [] = (Return nyc_response, nyc_calls) /\
  getitem_key nyc_response "route" = Return line /\
  get_safe_route city_two_routes status_colon_detail nyc []
    = get_safe_route city status_colon_detail nyc [].
Proof.
  assert (Hrun : get_safe_route city status_colon_detail nyc []
                 = (Return nyc_response, nyc_calls)) by (vm_compute; reflexivity).
  destruct (route_is_first_feature_geometry city status_colon_detail nyc [])
    as [Hroute Hsame].
  split; [exact Hrun |]. split.
  - destruct (Hroute _ _ Hrun)
      as (ocoords & dcoords & routes & first & rest & geometry & rcoords
          & Hdir & Hf & Hg & Hc & Hr).
    settle Hdir. settle Hf. settle Hg. settle Hc. exact Hr.
  - apply Hsame.
    + intros l text. reflexivity.
    + intros l coordinates profile format. right.
      exists (collection [feature line; feature detour]), (collection [feature line]),
             (feature line), [feature detour], [].
      repeat split; reflexivity.
Defined.

(** ** C8: the [except] clauses of [get_safe_route] *)

(** C8.  When the body of [get_safe_route] raises an [IndexError], the
    handler fails with status 404 and the detail "Could not find valid
    coordinates for the specified addresses."; when it raises anything else,
    the handler fails with status 500 and a detail that ends with the text of
    the exception, after "Error generating route: " or "Unexpected error
    occurred: ". *)
Theorem index_error_is_not_found P str req log :
  (forall msg log',
     get_safe_route_body P req log = (Raise (IndexError msg), log') ->
     get_safe_route P str req log
     = (Raise (HTTPException 404
                 "Could not find valid coordinates for the specified addresses."),
        log')) /\
  (forall e log',
     get_safe_route_body P req log = (Raise e, log') ->
     (forall msg, e <> IndexError msg) ->
     exists prefix,
       (prefix = "Error generating route: " \/ prefix = "Unexpected error occurred: ") /\
       get_safe_route P str req log
       = (Raise (HTTPException 500 (prefix ++ str_exn str e)), log')).
Proof.
  unfold get_safe_route, try_except. split.
  - intros msg log' ->. reflexivity.
  - intros e log' -> Hother.
    destruct e; simpl; unfold raise;
      try (exists "Unexpected error occurred: "; split; [right |]; reflexivity).
    + exists "Error generating route: ". split; [left |]; reflexivity.
    + exfalso. exact (Hother msg eq_refl).
Qed.

(** The theorem above at two sample requests: a first feature with one
    coordinate only (the latitude lookup raises [IndexError]), and a
    geocoding reply without [features] (the lookup raises [KeyError]). *)
Lemma index_error_is_not_found_samples :
  (get_safe_route_body short_coordinates nyc []
   = (Raise (IndexError "list index out of range"),
      [ PeliasSearch "Times Square, NYC"; PeliasSearch "Central Park, NYC";
        Directions [VList [VFloat (-739857 # 10000)]; central_park]
                   "driving-car" "geojson" ]) /\
   get_safe_route short_coordinates status_colon_detail nyc []
   = (Raise (HTTPException 404
               "Could not find valid coordinates for the specified addresses."),
      [ PeliasSearch "Times Square, NYC"; PeliasSearch "Central Park, NYC";
        Directions [VList [VFloat (-739857 # 10000)]; central_park]
                   "driving-car" "geojson" ])) /\
  (get_safe_route_body malformed_geocoding nyc []
   = (Raise (KeyError "'features'"),
      [ PeliasSearch "Times Square, NYC"; PeliasSearch "Central Park, NYC" ]) /\
   exists prefix,
     (prefix = "Error generating route: " \/ prefix = "Unexpected error occurred: ") /\
     get_safe_route malformed_geocoding status_colon_detail nyc []
     = (Raise (HTTPException 500 (prefix ++ "'features'")),
        [ PeliasSearch "Times Square, NYC"; PeliasSearch "Central Park, NYC" ])).
Proof.
  split.
  - assert (Hbody : get_safe_route_body short_coordinates nyc []
                    = (Raise (IndexError "list index out of range"),
                       [ PeliasSearch "Times Square, NYC";
                         PeliasSearch "Central Park, NYC";
                         Directions [VList [VFloat (-739857 # 10000)]; central_park]
                                    "driving-car" "geojson" ]))
      by (vm_compute; reflexivity).
    split; [exact Hbody |].
    exact (proj1 (index_error_is_not_found short_coordinates status_colon_detail nyc [])
                 _ _ Hbody).
  - assert (Hbody : get_safe_route_body malformed_geocoding nyc []
                    = (Raise (KeyError "'features'"),
                       [ PeliasSearch "Times Square, NYC";
                         PeliasSearch "Central Park, NYC" ]))
      by (vm_compute; reflexivity).
    split; [exact Hbody |].
    apply (proj2 (index_error_is_not_found malformed_geocoding status_colon_detail nyc [])
                 _ _ Hbody).
    intros msg Habs. discriminate Habs.
Defined.

(** ** C2: empty geocoding *)

(** C2 (what the code does).  When both searches answer and the origin's
    [features] list is empty, or the origin's [features] are there and the
    destination's list is empty, the 404 raised on line 53 is caught by the
    [except Exception] clause of the same [try] (line 106): the call fails
    with status 500, and the detail is "Unexpected error occurred: " followed
    by the text of the caught 404. *)
Theorem empty_geocoding_is_wrapped P str req log origin_search destination_search :
  ors_pelias_search P log (origin req) = Return origin_search ->
  ors_pelias_search P (log ++ [PeliasSearch (origin req)]) (destination req)
    = Return destination_search ->
  getitem_key origin_search "features" = Return (VList []) \/
  (exists origin_features,
     getitem_key origin_search "features" = Return origin_features /\
     truthy origin_features = true /\
     getitem_key destination_search "features" = Return (VList [])) ->
  get_safe_route P str req log
  = (Raise (HTTPException 500
              ("Unexpected error occurred: "
               ++ str 404%Z "Could not find valid coordinates for the specified addresses.")),
     (log ++ [PeliasSearch (origin req)]) ++ [PeliasSearch (destination req)]) /\
  fst (respond (fst (get_safe_route P str req log))) = 500%Z.
Proof.
  intros Ho Hd Hempty.
  assert (Hm : missing_features origin_search destination_search = Return true).
  { unfold missing_features.
    destruct Hempty as [-> | (ofeatures & -> & Ht & ->)]; simpl.
    - reflexivity.
    - rewrite Ht. reflexivity. }
  assert (E : get_safe_route P str req log
              = (Raise (HTTPException 500
                          ("Unexpected error occurred: "
                           ++ str 404%Z "Could not find valid coordinates for the specified addresses.")),
                 (log ++ [PeliasSearch (origin req)]) ++ [PeliasSearch (destination req)])).
  { unfold get_safe_route, try_except, get_safe_route_body, bind, pelias_search,
      perform, lift.
    rewrite Ho, Hd, Hm. reflexivity. }
  split; [exact E |]. rewrite E. reflexivity.
Qed.

(** The theorem above at the sample request, with a geocoder that finds
    nothing for the origin. *)
Lemma empty_geocoding_is_wrapped_sample :
  getitem_key (collection []) "features" = Return (VList []) /\
  get_safe_route unknown_origin status_colon_detail nyc []
  = (Raise (HTTPException 500
              "Unexpected error occurred: 404: Could not find valid coordinates for the specified addresses."),
     [ PeliasSearch "Times Square, NYC"; PeliasSearch "Central Park, NYC" ]) /\
  fst (respond (fst (get_safe_route unknown_origin status_colon_detail nyc []))) = 500%Z.
Proof.
  split; [reflexivity |].
  exact (empty_geocoding_is_wrapped unknown_origin status_colon_detail nyc []
           (collection []) (collection [feature central_park])
           eq_refl eq_refl (or_introl eq_refl)).
Defined.

(** The same with a geocoder that finds nothing for the destination, where
    [str(e)] of an [HTTPException] is empty. *)
Example empty_destination_is_wrapped :
  get_safe_route unknown_destination empty_str nyc []
  = (Raise (HTTPException 500 "Unexpected error occurred: "),
     [ PeliasSearch "Times Square, NYC"; PeliasSearch "Central Park, NYC" ]).
Proof. vm_compute. reflexivity. Qed.

(** The only way to a 404: an [IndexError] raised by the body.  None of the
    three 404s the body raises itself (lines 53, 73 and 83) leaves the
    handler as a 404. *)
Lemma not_found_only_from_index_error P str req log detail log' :
  get_safe_route P str req log = (Raise (HTTPException 404 detail), log') ->
  exists msg, get_safe_route_body P req log = (Raise (IndexError msg), log').
Proof.
  unfold get_safe_route, try_except.
  destruct (get_safe_route_body P req log) as [[resp | e] log1]; intro H.
  - discriminate H.
  - destruct e; simpl in H; unfold raise in H; inversion H.
    subst. exists msg. reflexivity.
Qed.

(** ** C4: routing errors *)

(** C4 (what the code does).  When geocoding succeeded and the router raises
    an [ApiError], the [HTTPException] built by the inner handler (404 with
    the remote-destination detail when the message names a routable point
    within a radius, 500 with "Error generating route: ..." otherwise) is
    raised inside the outer [try] and caught by its [except Exception]
    clause: either way the call fails with status 500 and the detail
    "Unexpected error occurred: " followed by the text of the caught
    exception. *)
Theorem routing_error_is_wrapped P str req log
    origin_search destination_search origin_coords destination_coords msg :
  let log2 := (log ++ [PeliasSearch (origin req)]) ++ [PeliasSearch (destination req)] in
  let coordinates := [origin_coords; destination_coords] in
  ors_pelias_search P log (origin req) = Return origin_search ->
  ors_pelias_search P (log ++ [PeliasSearch (origin req)]) (destination req)
    = Return destination_search ->
  missing_features origin_search destination_search = Return false ->
  first_feature_coordinates origin_search = Return origin_coords ->
  first_feature_coordinates destination_search = Return destination_coords ->
  ors_directions P log2 coordinates "driving-car" "geojson" = Raise (ApiError msg) ->
  get_safe_route P str req log
  = (Raise (HTTPException 500
              ("Unexpected error occurred: "
               ++ (if contains "Could not find routable point within a radius" msg
                   then str 404%Z
                          "Could not find a route to the specified destination. It may be too remote for routing."
                   else str 500%Z ("Error generating route: " ++ msg)%string))),
     log2 ++ [Directions coordinates "driving-car" "geojson"]) /\
  fst (respond (fst (get_safe_route P str req log))) = 500%Z.
Proof.
  intros log2 coordinates Ho Hd Hm Hoc Hdc Hdir.
  assert (E : get_safe_route P str req log
              = (Raise (HTTPException 500
                          ("Unexpected error occurred: "
                           ++ (if contains "Could not find routable point within a radius" msg
                               then str 404%Z
                                      "Could not find a route to the specified destination. It may be too remote for routing."
                               else str 500%Z ("Error generating route: " ++ msg)%string))),
                 log2 ++ [Directions coordinates "driving-car" "geojson"])).
  { unfold get_safe_route, try_except, get_safe_route_body, bind, pelias_search,
      perform, lift.
    rewrite Ho, Hd, Hm, Hoc, Hdc.
    unfold try_except, directions, perform.
    fold coordinates. fold log2. rewrite Hdir.
    unfold directions_except.
    destruct (contains "Could not find routable point within a radius" msg);
      reflexivity. }
  split; [exact E |]. rewrite E. reflexivity.
Qed.

(** The theorem above at the sample request, with a router that reports no
    routable point within its radius. *)
Lemma routing_error_is_wrapped_remote :
  ors_directions (routing_error remote_message)
                 [PeliasSearch "Times Square, NYC"; PeliasSearch "Central Park, NYC"]
                 [times_square; central_park] "driving-car" "geojson"
  = Raise (ApiError remote_message) /\
  get_safe_route (routing_error remote_message) status_colon_detail nyc []
  = (Raise (HTTPException 500
              "Unexpected error occurred: 404: Could not find a route to the specified destination. It may be too remote for routing."),
     nyc_calls) /\
  fst (respond (fst (get_safe_route (routing_error remote_message)
                                    status_colon_detail nyc []))) = 500%Z.
Proof.
  split; [reflexivity |].
  exact (routing_error_is_wrapped (routing_error remote_message) status_colon_detail nyc []
           (collection [feature times_square]) (collection [feature central_park])
           times_square central_park remote_message
           eq_refl eq_refl eq_refl eq_refl eq_refl eq_refl).
Defined.

(** With a router that rejects the request for another reason, the status is
    500 as well; the detail is not of the form "Error generating route: ...". *)
Example routing_error_quota :
  get_safe_route (routing_error quota_message) status_colon_detail nyc []
  = (Raise (HTTPException 500
              "Unexpected error occurred: 500: Error generating route: 403 ({'error': 'Daily quota reached or API key unauthorized'})"),
     nyc_calls).
Proof. vm_compute. reflexivity. Qed.

(** Where [str(e)] of an [HTTPException] is empty, the two routing failures
    are the same outcome. *)
Example routing_errors_collide :
  get_safe_route (routing_error remote_message) empty_str nyc []
  = get_safe_route (routing_error quota_message) empty_str nyc [].
Proof. vm_compute. reflexivity. Qed.

(** ** C5: [ask_ai] without a key *)

(** C5 (what the code does).  When [openai.api_key] is unset ([None], or the
    empty string), [ask_ai] makes no call: the log of provider calls is left
    as it was.  But the configuration error raised on line 117, a 500 with
    the detail "OpenAI API key is not set.", is caught by the
    [except Exception] clause of the same [try] (line 136): what leaves the
    handler is the generic 500 of line 139, "Unexpected error with AI
    response: " followed by the text of the caught exception, and never the
    configuration error itself. *)
Theorem missing_key_is_wrapped P env str strip query log :
  api_key_missing (OPENAI_API_KEY env) = true ->
  ask_ai P env str strip query log
  = (Raise (HTTPException 500
              ("Unexpected error with AI response: "
               ++ str_exn str (HTTPException 500 "OpenAI API key is not set."))),
     log) /\
  snd (ask_ai P env str strip query log) = log /\
  fst (respond (fst (ask_ai P env str strip query log))) = 500%Z /\
  fst (ask_ai P env str strip query log)
  <> Raise (HTTPException 500 "OpenAI API key is not set.").
Proof.
  intro Hkey.
  assert (E : ask_ai P env str strip query log
              = (Raise (HTTPException 500
                          ("Unexpected error with AI response: "
                           ++ str_exn str (HTTPException 500 "OpenAI API key is not set."))),
                 log)).
  { unfold ask_ai, try_except, ask_ai_body. rewrite Hkey. reflexivity. }
  rewrite E. repeat split; try reflexivity.
  simpl. intro H. discriminate H.
Qed.

(** The theorem above in an environment without keys. *)
Lemma missing_key_is_wrapped_sample :
  api_key_missing (OPENAI_API_KEY no_keys) = true /\
  ask_ai city no_keys status_colon_detail strip_trimmed walk_home []
  = (Raise (HTTPException 500
              "Unexpected error with AI response: 500: OpenAI API key is not set."),
     []) /\
  fst (ask_ai city no_keys status_colon_detail strip_trimmed walk_home [])
  <> Raise (HTTPException 500 "OpenAI API key is not set.").
Proof.
  split; [reflexivity |].
  destruct (missing_key_is_wrapped city no_keys status_colon_detail strip_trimmed
              walk_home [] eq_refl) as (Hrun & _ & _ & Hnot).
  split; [exact Hrun | exact Hnot].
Defined.

(** Where [str(e)] of an [HTTPException] is empty, a missing key is answered
    like a failure of the chat provider that has no message: nothing in the
    response tells the configuration error apart. *)
Example missing_key_answers_like_provider_failure :
  respond (fst (ask_ai city no_keys empty_str strip_trimmed walk_home []))
  = respond (fst (ask_ai (chatting (Raise (OtherException ""))) with_key
                         empty_str strip_trimmed walk_home [])).
Proof. vm_compute. reflexivity. Qed.

(** ** C6: the static alerts *)

(** C6.  [get_real_time_alerts] has no parameter; from every log of calls it
    returns the same dict, [police_stations] 2, [public_facilities] 5,
    [crowd_density] "Medium", and makes no call. *)
Theorem get_real_time_alerts_constant (log : list call) :
  get_real_time_alerts log
  = (Return (VDict [ ("police_stations", VInt 2);
                     ("public_facilities", VInt 5);
                     ("crowd_density", VStr "Medium") ]),
     log).
Proof. reflexivity. Qed.

(** ** [get_safety_score] *)

(** The module binds every global name its handlers evaluate, except
    [requests]. *)
Lemma requests_is_not_bound :
  name_bound "requests" = false /\
  forallb name_bound ["ors_client"; "openrouteservice"; "HTTPException"; "openai"; "os"]
  = true.
Proof. split; vm_compute; reflexivity. Qed.

(** C9.  For every route, every provider and every environment,
    [get_safety_score] makes no call and fails with status 500 and the detail
    "Could not fetch safety score.": evaluating [requests] raises a
    [NameError], which the handler's [except Exception] clause turns into
    that failure. *)
Theorem get_safety_score_always_500 P env (route : list value) (log : list call) :
  get_safety_score_body P env route log
  = (Raise (NameError "name 'requests' is not defined"), log) /\
  get_safety_score P env route log
  = (Raise (HTTPException 500 "Could not fetch safety score."), log) /\
  respond (fst (get_safety_score P env route log))
  = (500%Z, VDict [("detail", VStr "Could not fetch safety score.")]).
Proof. repeat split; reflexivity. Qed.

(** C3 (what the code does).  With a scoring endpoint that would answer 503,
    and with one that would answer 200 with a body without [score], the
    response is a 500 with the detail "Could not fetch safety score.", not a
    200 carrying "Error fetching safety score" or "N/A": the endpoint is
    never reached. *)
Theorem get_safety_score_soft_failure_unreachable env (route : list value) :
  respond (fst (get_safety_score (scoring 503 (Return VNone)) env route []))
  = (500%Z, VDict [("detail", VStr "Could not fetch safety score.")]) /\
  respond (fst (get_safety_score (scoring 200 (Return (VDict []))) env route []))
  = (500%Z, VDict [("detail", VStr "Could not fetch safety score.")]) /\
  snd (get_safety_score (scoring 503 (Return VNone)) env route []) = [].
Proof. repeat split; reflexivity. Qed.

(** * Further properties of the handlers *)

(** ** The calls [get_safe_route] makes *)



(** Unfolds a run of [get_safe_route] down to the providers' answers. *)
Ltac run_get_safe_route :=
  unfold get_safe_route, try_except, get_safe_route_body, bind, pelias_search,
    perform, lift.

(** Unfolds the routing call once the geocoding answers are in place. *)
Ltac run_directions := unfold try_except, directions, perform.

(** ** Outcomes of [get_safe_route] *)

(** X2.  A response returned by [get_safe_route] has exactly the entries
    [origin], [destination], [route] and [alerts], in this order; the
    [coordinates] under [origin] and [destination] are the coordinates of the
    first feature of the two geocoding replies, the very pair sent to the
    router; and the call made exactly three provider calls. *)
Theorem returned_response_shape P str req log resp log' :
  get_safe_route P str req log = (Return resp, log') ->
  exists origin_search destination_search origin_coords destination_coords
         route_coords alerts,
    ors_pelias_search P log (origin req) = Return origin_search /\
    ors_pelias_search P (log ++ [PeliasSearch (origin req)]) (destination req)
      = Return destination_search /\
    first_feature_coordinates origin_search = Return origin_coords /\
    first_feature_coordinates destination_search = Return destination_coords /\
    resp = VDict
             [ ("origin", VDict [ ("address", VStr (origin req));
                                  ("coordinates", origin_coords) ]);
               ("destination", VDict [ ("address", VStr (destination req));
                                       ("coordinates", destination_coords) ]);
               ("route", route_coords);
               ("alerts", alerts) ] /\
    log' = log ++ [ PeliasSearch (origin req); PeliasSearch (destination req);
                    Directions [origin_coords; destination_coords]
                               "driving-car" "geojson" ].
Proof.
  intro H. apply get_safe_route_Return, get_safe_route_body_Return in H.
  destruct H as (osearch & dsearch & ocoords & dcoords & routes & rcoords & alerts & H).
  cbv zeta in H. destruct H as (Ho & Hd & _ & Hoc & Hdc & _ & _ & _ & -> & ->).
  exists osearch, dsearch, ocoords, dcoords, rcoords, alerts.
  repeat (split; [assumption |]).
  split; [reflexivity |].
  rewrite <- !app_assoc. reflexivity.
Qed.

(** The theorem above at the sample request. *)
Lemma returned_response_shape_nyc :
  get_safe_route city status_colon_detail nyc [] = (Return nyc_response, nyc_calls) /\
  exists origin_coords destination_coords route_coords alerts,
    first_feature_coordinates (collection [feature times_square]) = Return origin_coords /\
    first_feature_coordinates (collection [feature central_park])
      = Return destination_coords /\
    nyc_response
    = VDict [ ("origin", VDict [ ("address", VStr "Times Square, NYC");
                                 ("coordinates", origin_coords) ]);
              ("destination", VDict [ ("address", VStr "Central Park, NYC");
                                      ("coordinates", destination_coords) ]);
              ("route", route_coords);
              ("alerts", alerts) ] /\
    nyc_calls = [ PeliasSearch "Times Square, NYC"; PeliasSearch "Central Park, NYC";
                  Directions [origin_coords; destination_coords]
                             "driving-car" "geojson" ].
Proof.
  assert (Hrun : get_safe_route city status_colon_detail nyc []
                 = (Return nyc_response, nyc_calls)) by (vm_compute; reflexivity).
  split; [exact Hrun |].
  destruct (returned_response_shape _ _ _ _ _ _ Hrun)
    as (osearch & dsearch & ocoords & dcoords & rcoords & alerts
        & Ho & Hd & Hoc & Hdc & Hresp & Hlog).
  settle Ho. settle Hd.
  exists ocoords, dcoords, rcoords, alerts.
  repeat split; assumption.
Defined.

(** A reply with coordinates for its first feature has [features] that count
    as present. *)
Lemma first_feature_coordinates_truthy x coords :
  first_feature_coordinates x = Return coords ->
  exists features, getitem_key x "features" = Return features /\ truthy features = true.
Proof.
  intro H. apply first_feature_coordinates_Return in H.
  destruct H as (first & rest & geometry & Hf & _).
  exists (VList (first :: rest)). split; [exact Hf | reflexivity].
Qed.

Lemma missing_features_false a b ca cb :
  first_feature_coordinates a = Return ca ->
  first_feature_coordinates b = Return cb ->
  missing_features a b = Return false.
Proof.
  intros Ha Hb.
  apply first_feature_coordinates_truthy in Ha. destruct Ha as (fa & Ea & Ta).
  apply first_feature_coordinates_truthy in Hb. destruct Hb as (fb & Eb & Tb).
  unfold missing_features. rewrite Ea. simpl. rewrite Ta. simpl.
  rewrite Eb. simpl. rewrite Tb. reflexivity.
Qed.

(** Numbers are ordered by their values. *)
Lemma rich_compare_numbers op a b x y :
  as_number a = Some x -> as_number b = Some y ->
  rich_compare op a b = Return (op_Q op x y).
Proof.
  destruct a, b; simpl; intros Ha Hb;
    try discriminate Ha; try discriminate Hb;
    injection Ha as <-; injection Hb as <-; reflexivity.
Qed.

Lemma Qltb_compare x y :
  Qltb x y = match Qcompare x y with Lt => true | _ => false end.
Proof.
  unfold Qltb, Qle_bool, Qcompare, Z.leb.
  rewrite (Z.compare_antisym (Qnum x * QDen y) (Qnum y * QDen x)).
  destruct (Qnum x * QDen y ?= Qnum y * QDen x)%Z; reflexivity.
Qed.

Lemma Qgtb_compare x y :
  Qltb y x = match Qcompare x y with Gt => true | _ => false end.
Proof.
  rewrite Qltb_compare, <- (Qcompare_antisym x y).
  destruct (Qcompare x y); reflexivity.
Qed.

(** The alerts of two coordinate lists that start with numbers: the items
    behind the latitude play no part. *)
Lemma simulate_alerts_numbers olon olat orest dlon dlat drest (x0 y0 x1 y1 : Q) :
  as_number olon = Some x0 -> as_number olat = Some y0 ->
  as_number dlon = Some x1 -> as_number dlat = Some y1 ->
  simulate_alerts (VList (olon :: olat :: orest)) (VList (dlon :: dlat :: drest))
  = Return (VDict
      [ ("police_stations", VInt (match Qcompare y0 y1 with Gt => 3 | _ => 2 end));
        ("public_facilities", VInt (match Qcompare x0 x1 with Lt => 5 | _ => 3 end));
        ("crowd_density",
         VStr (match Qcompare y0 y1 with Lt => "High" | _ => "Medium" end)) ]).
Proof.
  intros Hx0 Hy0 Hx1 Hy1. unfold simulate_alerts, py_gt, py_lt. simpl.
  rewrite (rich_compare_numbers OpGt olat dlat y0 y1 Hy0 Hy1).
  rewrite (rich_compare_numbers OpLt olon dlon x0 x1 Hx0 Hx1).
  rewrite (rich_compare_numbers OpLt olat dlat y0 y1 Hy0 Hy1).
  simpl. rewrite Qgtb_compare, !Qltb_compare.
  destruct (Qcompare y0 y1), (Qcompare x0 x1); reflexivity.
Qed.

(** X3.  When both searches and the router answer, the first feature of each
    reply has coordinates, and the geocoded coordinates start with a numeric
    longitude and latitude, [get_safe_route] returns: the response echoes the
    two addresses and coordinates, carries the route's first-feature
    coordinates, and its alerts follow the three-way comparison of the
    latitudes and of the longitudes (3 / "Medium" when the origin lies north,
    2 / "High" when it lies south, 2 / "Medium" on equal latitudes; 5 when it
    lies west, 3 otherwise). *)
Theorem well_formed_replies_return P str req log
    origin_search destination_search routes route_coords
    olon olat orest dlon dlat drest (x0 y0 x1 y1 : Q) :
  let origin_coords := VList (olon :: olat :: orest) in
  let destination_coords := VList (dlon :: dlat :: drest) in
  let log2 := (log ++ [PeliasSearch (origin req)]) ++ [PeliasSearch (destination req)] in
  ors_pelias_search P log (origin req) = Return origin_search ->
  ors_pelias_search P (log ++ [PeliasSearch (origin req)]) (destination req)
    = Return destination_search ->
  first_feature_coordinates origin_search = Return origin_coords ->
  first_feature_coordinates destination_search = Return destination_coords ->
  as_number olon = Some x0 -> as_number olat = Some y0 ->
  as_number dlon = Some x1 -> as_number dlat = Some y1 ->
  ors_directions P log2 [origin_coords; destination_coords] "driving-car" "geojson"
    = Return routes ->
  first_feature_coordinates routes = Return route_coords ->
  get_safe_route P str req log
  = (Return (VDict
       [ ("origin", VDict [ ("address", VStr (origin req));
                            ("coordinates", origin_coords) ]);
         ("destination", VDict [ ("address", VStr (destination req));
                                 ("coordinates", destination_coords) ]);
         ("route", route_coords);
         ("alerts", VDict
            [ ("police_stations", VInt (match Qcompare y0 y1 with Gt => 3 | _ => 2 end));
              ("public_facilities", VInt (match Qcompare x0 x1 with Lt => 5 | _ => 3 end));
              ("crowd_density",
               VStr (match Qcompare y0 y1 with Lt => "High" | _ => "Medium" end)) ]) ]),
     log2 ++ [Directions [origin_coords; destination_coords] "driving-car" "geojson"]).
Proof.
  intros ocoords dcoords log2 Ho Hd Hoc Hdc Hx0 Hy0 Hx1 Hy1 Hdir Hrc.
  pose proof (missing_features_false _ _ _ _ Hoc Hdc) as Hm.
  destruct (first_feature_coordinates_truthy _ _ Hrc) as (rf & Hrf & Trf).
  subst ocoords dcoords log2.
  run_get_safe_route.
  rewrite Ho, Hd, Hm, Hoc, Hdc. run_directions.
  rewrite Hdir, Hrf, Trf. simpl negb. cbv iota.
  rewrite Hrc.
  rewrite (simulate_alerts_numbers _ _ _ _ _ _ _ _ _ _ Hx0 Hy0 Hx1 Hy1).
  reflexivity.
Qed.

(** The theorem above at the sample request. *)
Lemma well_formed_replies_return_nyc :
  first_feature_coordinates (collection [feature times_square]) = Return times_square /\
  first_feature_coordinates (collection [feature line]) = Return line /\
  get_safe_route city status_colon_detail nyc [] = (Return nyc_response, nyc_calls).
Proof.
  split; [reflexivity |]. split; [reflexivity |].
  exact (well_formed_replies_return city status_colon_detail nyc []
           (collection [feature times_square]) (collection [feature central_park])
           (collection [feature line]) line
           (VFloat (-739857 # 10000)) (VFloat (407484 # 10000)) []
           (VFloat (-739654 # 10000)) (VFloat (407829 # 10000)) []
           (-739857 # 10000) (407484 # 10000) (-739654 # 10000) (407829 # 10000)
           eq_refl eq_refl eq_refl eq_refl eq_refl eq_refl eq_refl eq_refl
           eq_refl eq_refl).
Defined.

(** X4.  When geocoding succeeded and the router's reply has no features
    (an empty list, or any other value that counts as false), the 404 "No
    route found between the specified locations." raised on line 83 is
    caught by the [except Exception] clause of the same [try]: the call
    fails with status 500 and the detail "Unexpected error occurred: "
    followed by the text of the caught 404. *)
Theorem no_route_is_wrapped P str req log
    origin_search destination_search origin_coords destination_coords
    routes route_features :
  let log2 := (log ++ [PeliasSearch (origin req)]) ++ [PeliasSearch (destination req)] in
  let coordinates := [origin_coords; destination_coords] in
  ors_pelias_search P log (origin req) = Return origin_search ->
  ors_pelias_search P (log ++ [PeliasSearch (origin req)]) (destination req)
    = Return destination_search ->
  first_feature_coordinates origin_search = Return origin_coords ->
  first_feature_coordinates destination_search = Return destination_coords ->
  ors_directions P log2 coordinates "driving-car" "geojson" = Return routes ->
  getitem_key routes "features" = Return route_features ->
  truthy route_features = false ->
  get_safe_route P str req log
  = (Raise (HTTPException 500
              ("Unexpected error occurred: "
               ++ str 404%Z "No route found between the specified locations.")),
     log2 ++ [Directions coordinates "driving-car" "geojson"]).
Proof.
  intros log2 coordinates Ho Hd Hoc Hdc Hdir Hrf Hfalse.
  pose proof (missing_features_false _ _ _ _ Hoc Hdc) as Hm.
  subst log2 coordinates.
  run_get_safe_route. rewrite Ho, Hd, Hm, Hoc, Hdc. run_directions.
  rewrite Hdir, Hrf, Hfalse. reflexivity.
Qed.

(** The theorem above at the sample request, with a router that answers with
    an empty collection. *)
Lemma no_route_is_wrapped_sample :
  getitem_key (collection []) "features" = Return (VList []) /\
  get_safe_route no_route status_colon_detail nyc []
  = (Raise (HTTPException 500
              "Unexpected error occurred: 404: No route found between the specified locations."),
     nyc_calls).
Proof.
  split; [reflexivity |].
  exact (no_route_is_wrapped no_route status_colon_detail nyc []
           (collection [feature times_square]) (collection [feature central_park])
           times_square central_park (collection []) (VList [])
           eq_refl eq_refl eq_refl eq_refl eq_refl eq_refl eq_refl).
Defined.

(** X5.  An [ApiError] of the geocoder is caught by the [except ApiError]
    clause of the outer [try]: the call fails with status 500 and the detail
    "Error generating route: " followed by the provider's message.  When the
    first search raises it, the destination is never searched. *)
Theorem geocoder_api_error P str req log msg :
  (ors_pelias_search P log (origin req) = Raise (ApiError msg) ->
   get_safe_route P str req log
   = (Raise (HTTPException 500 ("Error generating route: " ++ msg)),
      log ++ [PeliasSearch (origin req)])) /\
  (forall origin_search,
     ors_pelias_search P log (origin req) = Return origin_search ->
     ors_pelias_search P (log ++ [PeliasSearch (origin req)]) (destination req)
       = Raise (ApiError msg) ->
     get_safe_route P str req log
     = (Raise (HTTPException 500 ("Error generating route: " ++ msg)),
        (log ++ [PeliasSearch (origin req)]) ++ [PeliasSearch (destination req)])).
Proof.
  split.
  - intro Ho. run_get_safe_route. rewrite Ho. reflexivity.
  - intros osearch Ho Hd. run_get_safe_route. rewrite Ho, Hd. reflexivity.
Qed.

(** The theorem above with a geocoder that rejects the first search, and with
    one that rejects the second. *)
Lemma geocoder_api_error_samples :
  get_safe_route (origin_search_error quota_message) status_colon_detail nyc []
  = (Raise (HTTPException 500
              "Error generating route: 403 ({'error': 'Daily quota reached or API key unauthorized'})"),
     [PeliasSearch "Times Square, NYC"]) /\
  get_safe_route (destination_search_error quota_message) status_colon_detail nyc []
  = (Raise (HTTPException 500
              "Error generating route: 403 ({'error': 'Daily quota reached or API key unauthorized'})"),
     [PeliasSearch "Times Square, NYC"; PeliasSearch "Central Park, NYC"]).
Proof.
  split.
  - exact (proj1 (geocoder_api_error (origin_search_error quota_message)
                    status_colon_detail nyc [] quota_message) eq_refl).
  - exact (proj2 (geocoder_api_error (destination_search_error quota_message)
                    status_colon_detail nyc [] quota_message)
                 (collection [feature times_square]) eq_refl eq_refl).
Defined.

(** X6.  A geocoding reply for the origin that is a dict without the key
    [features] makes line 52 raise a [KeyError]: the call fails with status
    500 and the detail "Unexpected error occurred: 'features'", after both
    searches and before any routing call. *)
Theorem missing_features_key_is_500 P str req log fields destination_search :
  ors_pelias_search P log (origin req) = Return (VDict fields) ->
  dict_get "features" fields = None ->
  ors_pelias_search P (log ++ [PeliasSearch (origin req)]) (destination req)
    = Return destination_search ->
  get_safe_route P str req log
  = (Raise (HTTPException 500 "Unexpected error occurred: 'features'"),
     (log ++ [PeliasSearch (origin req)]) ++ [PeliasSearch (destination req)]).
Proof.
  intros Ho Hkey Hd. run_get_safe_route. rewrite Ho, Hd.
  unfold missing_features, getitem_key. rewrite Hkey. reflexivity.
Qed.

(** The theorem above at the sample request, with a geocoder that answers
    with an error document. *)
Lemma missing_features_key_is_500_sample :
  dict_get "features" [("error", VStr "bad request")] = None /\
  get_safe_route malformed_geocoding status_colon_detail nyc []
  = (Raise (HTTPException 500 "Unexpected error occurred: 'features'"),
     [PeliasSearch "Times Square, NYC"; PeliasSearch "Central Park, NYC"]).
Proof.
  split; [reflexivity |].
  exact (missing_features_key_is_500 malformed_geocoding status_colon_detail nyc []
           [("error", VStr "bad request")] (collection [feature central_park])
           eq_refl eq_refl eq_refl).
Defined.

(** X7.  The test on line 52 is a truth test, not a test for the empty list:
    when the origin's [features] is any value that counts as false ([None],
    0, the empty string, an empty dict or list), the call takes the same path
    as for an empty list, and the destination's reply is not looked at. *)
Theorem falsy_features_count_as_missing P str req log
    origin_search destination_search origin_features :
  ors_pelias_search P log (origin req) = Return origin_search ->
  ors_pelias_search P (log ++ [PeliasSearch (origin req)]) (destination req)
    = Return destination_search ->
  getitem_key origin_search "features" = Return origin_features ->
  truthy origin_features = false ->
  get_safe_route P str req log
  = (Raise (HTTPException 500
              ("Unexpected error occurred: "
               ++ str 404%Z "Could not find valid coordinates for the specified addresses.")),
     (log ++ [PeliasSearch (origin req)]) ++ [PeliasSearch (destination req)]).
Proof.
  intros Ho Hd Hf Hfalse. run_get_safe_route. rewrite Ho, Hd.
  unfold missing_features. rewrite Hf. simpl. rewrite Hfalse. reflexivity.
Qed.

(** The theorem above at the sample request, with [features: null] for the
    origin. *)
Lemma falsy_features_count_as_missing_sample :
  truthy VNone = false /\
  get_safe_route null_features status_colon_detail nyc []
  = (Raise (HTTPException 500
              "Unexpected error occurred: 404: Could not find valid coordinates for the specified addresses."),
     [PeliasSearch "Times Square, NYC"; PeliasSearch "Central Park, NYC"]).
Proof.
  split; [reflexivity |].
  exact (falsy_features_count_as_missing null_features status_colon_detail nyc []
           (VDict [("features", VNone)]) (collection [feature central_park]) VNone
           eq_refl eq_refl eq_refl eq_refl).
Defined.

(** X8.  The inner handler catches [ApiError] only.  Any other exception of
    the router reaches the clauses of the outer [try] unchanged: an
    [IndexError] leaves as the 404 "Could not find valid coordinates for the
    specified addresses.", anything else as a 500 with the detail
    "Unexpected error occurred: " followed by its text. *)
Theorem router_exception_passes_inner_handler P str req log
    origin_search destination_search origin_coords destination_coords e :
  let log2 := (log ++ [PeliasSearch (origin req)]) ++ [PeliasSearch (destination req)] in
  let coordinates := [origin_coords; destination_coords] in
  ors_pelias_search P log (origin req) = Return origin_search ->
  ors_pelias_search P (log ++ [PeliasSearch (origin req)]) (destination req)
    = Return destination_search ->
  first_feature_coordinates origin_search = Return origin_coords ->
  first_feature_coordinates destination_search = Return destination_coords ->
  ors_directions P log2 coordinates "driving-car" "geojson" = Raise e ->
  (forall msg, e <> ApiError msg) ->
  get_safe_route P str req log
  = (Raise (match e with
            | IndexError _ =>
                HTTPException 404
                  "Could not find valid coordinates for the specified addresses."
            | _ => HTTPException 500 ("Unexpected error occurred: " ++ str_exn str e)
            end),
     log2 ++ [Directions coordinates "driving-car" "geojson"]).
Proof.
  intros log2 coordinates Ho Hd Hoc Hdc Hdir Hother.
  pose proof (missing_features_false _ _ _ _ Hoc Hdc) as Hm.
  subst log2 coordinates.
  run_get_safe_route. rewrite Ho, Hd, Hm, Hoc, Hdc. run_directions.
  rewrite Hdir.
  destruct e; try reflexivity.
  exfalso. exact (Hother msg eq_refl).
Qed.

(** The theorem above at the sample request, with a router that times
    out. *)
Lemma router_exception_passes_inner_handler_timeout :
  (forall msg, OtherException "Timeout" <> ApiError msg) /\
  get_safe_route (routing_raises (OtherException "Timeout")) status_colon_detail nyc []
  = (Raise (HTTPException 500 "Unexpected error occurred: Timeout"), nyc_calls).
Proof.
  assert (Hother : forall msg, OtherException "Timeout" <> ApiError msg)
    by (intros msg Habs; discriminate Habs).
  split; [exact Hother |].
  exact (router_exception_passes_inner_handler
           (routing_raises (OtherException "Timeout")) status_colon_detail nyc []
           (collection [feature times_square]) (collection [feature central_park])
           times_square central_park (OtherException "Timeout")
           eq_refl eq_refl eq_refl eq_refl eq_refl Hother).
Defined.

(** ** The test for a remote destination *)

Lemma prefix_iff (s1 s2 : string) :
  prefix s1 s2 = true <-> exists rest, s2 = (s1 ++ rest)%string.
Proof.
  revert s2. induction s1 as [| a s1 IH]; intro s2.
  - split; [intros _; exists s2; reflexivity | intros _; destruct s2; reflexivity].
  - destruct s2 as [| b s2]; simpl.
    + split; [discriminate | intros (rest & H); discriminate H].
    + destruct (ascii_dec a b) as [-> | Hne].
      * rewrite IH. split; intros (rest & H); exists rest.
        -- rewrite H. reflexivity.
        -- injection H as H. exact H.
      * split; [discriminate |].
        intros (rest & H). injection H as Hab _. congruence.
Qed.

(** [contains] is the substring test. *)
Lemma contains_iff (needle hay : string) :
  contains needle hay = true <-> exists before rest, hay = (before ++ needle ++ rest)%string.
Proof.
  induction hay as [| c hay IH]; cbn [contains].
  - rewrite orb_false_r. rewrite prefix_iff. split.
    + intros (rest & H). exists "", rest. exact H.
    + intros (before & rest & H). destruct before as [| b before]; simpl in H.
      * exists rest. exact H.
      * discriminate H.
  - rewrite orb_true_iff, IH, prefix_iff. split.
    + intros [(rest & H) | (before & rest & H)].
      * exists "", rest. exact H.
      * exists (String c before), rest. simpl. rewrite H. reflexivity.
    + intros (before & rest & H). destruct before as [| b before]; simpl in H.
      * left. exists rest. exact H.
      * right. injection H as _ H. exists before, rest. exact H.
Qed.

(** X10.  The inner handler answers an [ApiError] with the 404 for a remote
    destination exactly when the provider's message has the phrase "Could not
    find routable point within a radius" somewhere inside it; for every other
    message it answers with the 500 "Error generating route: " followed by
    the message. *)
Theorem remote_branch_is_substring_test (msg : string) (log : list call) :
  (directions_except (ApiError msg) log
   = (Raise (HTTPException 404
               "Could not find a route to the specified destination. It may be too remote for routing."),
      log)
   <-> exists before rest,
         msg = (before ++ "Could not find routable point within a radius" ++ rest)%string) /\
  (directions_except (ApiError msg) log
   = (Raise (HTTPException 500 ("Error generating route: " ++ msg)), log)
   <-> ~ exists before rest,
           msg = (before ++ "Could not find routable point within a radius" ++ rest)%string).
Proof.
  rewrite <- contains_iff. unfold directions_except, raise.
  destruct (contains "Could not find routable point within a radius" msg); split; split;
    try reflexivity; try discriminate; congruence.
Qed.

(** ** Geocoding replies with several matches *)

(** How line 52 reads a reply: are its [features] there? *)
Lemma missing_features_reads_truth a' a b' b :
  (let? f := getitem_key a' "features" in Return (truthy f))
  = (let? f := getitem_key a "features" in Return (truthy f)) ->
  (let? f := getitem_key b' "features" in Return (truthy f))
  = (let? f := getitem_key b "features" in Return (truthy f)) ->
  missing_features a' b' = missing_features a b.
Proof.
  unfold missing_features. intros Ha Hb.
  destruct (getitem_key a' "features") as [fa' | ea'],
           (getitem_key a "features") as [fa | ea]; simpl in Ha |- *;
    try discriminate Ha; [| exact Ha].
  injection Ha as ->.
  destruct (truthy fa); simpl; [| reflexivity].
  destruct (getitem_key b' "features") as [fb' | eb'],
           (getitem_key b "features") as [fb | eb]; simpl in Hb |- *;
    try discriminate Hb; [| exact Hb].
  injection Hb as ->. reflexivity.
Qed.

(** Two answers of the geocoder that are equal, or that both carry a list of
    features with the same head, are read alike. *)
Lemma same_first_feature_read_alike (x' x : result value) :
  x' = x \/
  (exists reply' reply first rest' rest,
     x' = Return reply' /\ x = Return reply /\
     getitem_key reply' "features" = Return (VList (first :: rest')) /\
     getitem_key reply "features" = Return (VList (first :: rest))) ->
  (exists e, x' = Raise e /\ x = Raise e) \/
  (exists reply' reply,
     x' = Return reply' /\ x = Return reply /\
     first_feature_coordinates reply' = first_feature_coordinates reply /\
     (let? f := getitem_key reply' "features" in Return (truthy f))
     = (let? f := getitem_key reply "features" in Return (truthy f))).
Proof.
  intros [-> | (reply' & reply & first & rest' & rest & -> & -> & F' & F)].
  - destruct x as [reply | e].
    + right. exists reply, reply. repeat split; reflexivity.
    + left. exists e. split; reflexivity.
  - right. exists reply', reply. split; [reflexivity |]. split; [reflexivity |].
    split.
    + rewrite (first_feature_coordinates_head reply' first rest' F').
      rewrite (first_feature_coordinates_head reply first rest F).
      reflexivity.
    + rewrite F', F. reflexivity.
Qed.

(** X11.  Of each geocoding reply only the first feature counts: two
    geocoders whose answers differ only behind the first feature of their
    feature lists lead, with the same router, to the same outcome and the
    same calls. *)
Theorem geocoding_uses_first_feature_only P P' str req log :
  (forall l coordinates profile format,
     ors_directions P' l coordinates profile format
     = ors_directions P l coordinates profile format) ->
  (forall l text,
     ors_pelias_search P' l text = ors_pelias_search P l text \/
     exists reply' reply first rest' rest,
       ors_pelias_search P' l text = Return reply' /\
       ors_pelias_search P l text = Return reply /\
       getitem_key reply' "features" = Return (VList (first :: rest')) /\
       getitem_key reply "features" = Return (VList (first :: rest))) ->
  get_safe_route P' str req log = get_safe_route P str req log.
Proof.
  intros Hdir Hsearch.
  assert (E : get_safe_route_body P' req log = get_safe_route_body P req log);
    [| unfold get_safe_route, try_except; rewrite E; reflexivity].
  unfold get_safe_route_body, bind, pelias_search, perform, lift.
  destruct (same_first_feature_read_alike _ _ (Hsearch log (origin req)))
    as [(e & -> & ->) | (a' & a & -> & -> & Hca & Hta)]; [reflexivity |].
  destruct (same_first_feature_read_alike _ _
              (Hsearch (log ++ [PeliasSearch (origin req)]) (destination req)))
    as [(e & -> & ->) | (b' & b & -> & -> & Hcb & Htb)]; [reflexivity |].
  rewrite (missing_features_reads_truth a' a b' b Hta Htb), Hca, Hcb.
  destruct (missing_features a b) as [[|] |]; try reflexivity.
  destruct (first_feature_coordinates a) as [ocoords |]; [| reflexivity].
  destruct (first_feature_coordinates b) as [dcoords |]; [| reflexivity].
  unfold try_except, directions, perform. rewrite Hdir. reflexivity.
Qed.

(** The theorem above at the sample request: further matches behind the
    first one change nothing. *)
Lemma geocoding_uses_first_feature_only_nyc :
  get_safe_route city_many_matches status_colon_detail nyc []
  = get_safe_route city status_colon_detail nyc [] /\
  get_safe_route city_many_matches status_colon_detail nyc []
  = (Return nyc_response, nyc_calls).
Proof.
  assert (Hsame : get_safe_route city_many_matches status_colon_detail nyc []
                  = get_safe_route city status_colon_detail nyc []).
  { apply geocoding_uses_first_feature_only.
    - intros l coordinates profile format. reflexivity.
    - intros [| c l] text; right.
      + exists (collection [feature times_square; feature central_park]),
               (collection [feature times_square]),
               (feature times_square), [feature central_park], [].
        repeat split; reflexivity.
      + exists (collection [feature central_park; feature times_square]),
               (collection [feature central_park]),
               (feature central_park), [feature times_square], [].
        repeat split; reflexivity. }
  split; [exact Hsame |].
  rewrite Hsame. vm_compute. reflexivity.
Defined.

(** ** The values the alerts can take *)

(** Induction on values, with the items of a list as smaller values. *)
Lemma value_items_ind (Pr : value -> Prop) :
  Pr VNone ->
  (forall b, Pr (VBool b)) ->
  (forall n, Pr (VInt n)) ->
  (forall x, Pr (VFloat x)) ->
  (forall s, Pr (VStr s)) ->
  (forall items, Forall Pr items -> Pr (VList items)) ->
  (forall fields, Pr (VDict fields)) ->
  forall v, Pr v.
Proof.
  intros HN HB HI HF HS HL HD.
  fix IH 1. intros [ | b | n | x | s | items | fields].
  - exact HN.
  - apply HB.
  - apply HI.
  - apply HF.
  - apply HS.
  - apply HL. revert items. fix IHitems 1. intros [| item items].
    + constructor.
    + constructor; [apply IH | apply IHitems].
  - apply HD.
Qed.

Lemma Qltb_asymmetric x y : Qltb x y = true -> Qltb y x = true -> False.
Proof.
  rewrite Qltb_compare, Qgtb_compare.
  destruct (Qcompare x y); discriminate.
Qed.

Lemma string_ltb_asymmetric s t : String.ltb s t = true -> String.ltb t s = true -> False.
Proof.
  unfold String.ltb. rewrite (String.compare_antisym t s).
  destruct (String.compare s t); simpl; discriminate.
Qed.

(** No two values are ordered both ways: [a > b] and [a < b] never hold
    together. *)
Lemma rich_compare_asymmetric a : forall b,
  rich_compare OpGt a b = Return true ->
  rich_compare OpLt a b = Return true ->
  False.
Proof.
  induction a as [ | ba | na | xa | sa | items IH | fields ] using value_items_ind;
    intros [ | bb | nb | xb | sb | others | fields' ]; simpl;
    intros Hgt Hlt; try discriminate Hgt;
    try (injection Hgt as Hgt; injection Hlt as Hlt;
         exact (Qltb_asymmetric _ _ Hlt Hgt)).
  - injection Hgt as Hgt. injection Hlt as Hlt.
    exact (string_ltb_asymmetric _ _ Hlt Hgt).
  - revert others Hgt Hlt.
    induction IH as [| item items Hitem _ IHitems]; intros [| other others] Hgt Hlt;
      try discriminate Hgt; try discriminate Hlt.
    destruct (py_eq item other).
    + exact (IHitems others Hgt Hlt).
    + exact (Hitem other Hgt Hlt).
Qed.

(** X12.  The alerts of a returned response are one of a few: the police
    stations are 2 or 3, the public facilities 3 or 5, the crowd density
    "Medium" or "High" (never "Low"), and 3 police stations never come
    with a "High" density. *)
Theorem alerts_take_few_values P str req log resp log' :
  get_safe_route P str req log = (Return resp, log') ->
  exists police facilities density,
    getitem_key resp "alerts"
    = Return (VDict [ ("police_stations", VInt police);
                      ("public_facilities", VInt facilities);
                      ("crowd_density", VStr density) ]) /\
    (police = 2 \/ police = 3)%Z /\
    (facilities = 3 \/ facilities = 5)%Z /\
    (density = "Medium" \/ density = "High") /\
    ~ (police = 3%Z /\ density = "High").
Proof.
  intro H. apply get_safe_route_Return, get_safe_route_body_Return in H.
  destruct H as (osearch & dsearch & ocoords & dcoords & routes & rcoords & alerts & H).
  cbv zeta in H. destruct H as (_ & _ & _ & _ & _ & _ & _ & Ha & -> & _).
  apply simulate_alerts_Return in Ha.
  destruct Ha as (olon & olat & dlon & dlat & north & west & south
                  & _ & _ & _ & _ & Hn & _ & Hs & ->).
  exists (if north then 3 else 2)%Z, (if west then 5 else 3)%Z,
         (if south then "High" else "Medium").
  split; [reflexivity |].
  split; [destruct north; auto |].
  split; [destruct west; auto |].
  split; [destruct south; auto |].
  intros [Hp Hd]. destruct north; [| discriminate Hp].
  destruct south; [| discriminate Hd].
  exact (rich_compare_asymmetric olat dlat Hn Hs).
Qed.

(** The theorem above at the sample request. *)
Lemma alerts_take_few_values_nyc :
  get_safe_route city status_colon_detail nyc [] = (Return nyc_response, nyc_calls) /\
  exists police facilities density,
    getitem_key nyc_response "alerts"
    = Return (VDict [ ("police_stations", VInt police);
                      ("public_facilities", VInt facilities);
                      ("crowd_density", VStr density) ]) /\
    (police = 2 \/ police = 3)%Z /\
    (facilities = 3 \/ facilities = 5)%Z /\
    (density = "Medium" \/ density = "High") /\
    ~ (police = 3%Z /\ density = "High").
Proof.
  assert (Hrun : get_safe_route city status_colon_detail nyc []
                 = (Return nyc_response, nyc_calls)) by (vm_compute; reflexivity).
  split; [exact Hrun |].
  exact (alerts_take_few_values _ _ _ _ _ _ Hrun).
Defined.

(** ** [ask_ai] *)

(** X13.  Whatever the provider answers, [ask_ai] makes no call when the key
    is missing, and otherwise exactly one: a chat completion with the model
    "gpt-4o", two messages (the fixed system prompt, then the question as the
    user's message), at most 150 tokens and the temperature 0.7. *)
Theorem ask_ai_call P env str strip query log :
  snd (ask_ai P env str strip query log)
  = if api_key_missing (OPENAI_API_KEY env) then log
    else log ++ [ ChatCompletionCreate "gpt-4o"
                    [ ("system", system_prompt); ("user", question query) ]
                    150 (7 # 10) ].
Proof.
  unfold ask_ai, try_except, ask_ai_body.
  destruct (api_key_missing (OPENAI_API_KEY env)); [reflexivity |].
  unfold bind, chat_completion_create, perform, lift, raise.
  destruct (openai_chat_create P log _ _ _ _) as [response |]; [| reflexivity].
  destruct (getattr response "choices") as [choices |]; [| reflexivity].
  destruct (getitem_index choices 0) as [first |]; [| reflexivity].
  destruct (getattr first "message") as [message |]; [| reflexivity].
  destruct (getattr message "content") as [content |]; [| reflexivity].
  destruct content; reflexivity.
Qed.

(** X14.  [ask_ai] returns exactly when the key is set, the provider answers,
    and the answer's first choice has a message whose content is a string;
    the response is then [{"response": text}] with [text] the stripped
    content. *)
Theorem ask_ai_returns_stripped_first_choice P env str strip query log resp log' :
  ask_ai P env str strip query log = (Return resp, log') <->
  api_key_missing (OPENAI_API_KEY env) = false /\
  exists response choices first message text,
    openai_chat_create P log "gpt-4o"
      [ ("system", system_prompt); ("user", question query) ] 150 (7 # 10)
    = Return response /\
    getattr response "choices" = Return choices /\
    getitem_index choices 0 = Return first /\
    getattr first "message" = Return message /\
    getattr message "content" = Return (VStr text) /\
    resp = VDict [("response", VStr (strip text))] /\
    log' = log ++ [ ChatCompletionCreate "gpt-4o"
                      [ ("system", system_prompt); ("user", question query) ]
                      150 (7 # 10) ].
Proof.
  unfold ask_ai, try_except, ask_ai_body. split.
  - destruct (api_key_missing (OPENAI_API_KEY env)); [discriminate |].
    unfold bind, chat_completion_create, perform, lift, raise, ret.
    destruct (openai_chat_create P log _ _ _ _) as [response |]; [| discriminate].
    destruct (getattr response "choices") as [choices |] eqn:Hc; [| discriminate].
    destruct (getitem_index choices 0) as [first |] eqn:Hf; [| discriminate].
    destruct (getattr first "message") as [message |] eqn:Hm; [| discriminate].
    destruct (getattr message "content") as [content |] eqn:Ht; [| discriminate].
    destruct content as [ | | | | text | | ]; try discriminate.
    intro H. injection H as <- <-. split; [reflexivity |].
    exists response, choices, first, message, text.
    repeat split; assumption.
  - intros (-> & response & choices & first & message & text
            & Hr & Hc & Hf & Hm & Ht & -> & ->).
    unfold bind, chat_completion_create, perform, lift, ret.
    rewrite Hr, Hc, Hf, Hm, Ht. reflexivity.
Qed.

(** The theorem above for a question the provider answers. *)
Lemma ask_ai_returns_stripped_first_choice_sample :
  ask_ai (chatting (Return (completion [choice (VStr "Stay on lit streets.")])))
         with_key status_colon_detail strip_trimmed walk_home []
  = (Return (VDict [("response", VStr "Stay on lit streets.")]), [walk_home_call]).
Proof.
  apply (proj2 (ask_ai_returns_stripped_first_choice
                  (chatting (Return (completion [choice (VStr "Stay on lit streets.")])))
                  with_key status_colon_detail strip_trimmed walk_home []
                  (VDict [("response", VStr "Stay on lit streets.")]) [walk_home_call])).
  split; [reflexivity |].
  exists (completion [choice (VStr "Stay on lit streets.")]),
         (VList [choice (VStr "Stay on lit streets.")]),
         (choice (VStr "Stay on lit streets.")),
         (VDict [("role", VStr "assistant"); ("content", VStr "Stay on lit streets.")]),
         "Stay on lit streets.".
  repeat split; reflexivity.
Defined.

(** X15.  With the key set, a failure of the chat provider leaves [ask_ai]
    as a 500 whose detail is "Unexpected error with AI response: " followed
    by the provider's message; and an answer without choices leaves it as a
    500 with the detail "Unexpected error with AI response: list index out of
    range".  Either way the one call was made. *)
Theorem ask_ai_provider_failures P env str strip query log :
  let request := ChatCompletionCreate "gpt-4o"
                   [ ("system", system_prompt); ("user", question query) ]
                   150 (7 # 10) in
  api_key_missing (OPENAI_API_KEY env) = false ->
  (forall e,
     openai_chat_create P log "gpt-4o"
       [ ("system", system_prompt); ("user", question query) ] 150 (7 # 10)
     = Raise e ->
     ask_ai P env str strip query log
     = (Raise (HTTPException 500 ("Unexpected error with AI response: " ++ str_exn str e)),
        log ++ [request])) /\
  (forall response,
     openai_chat_create P log "gpt-4o"
       [ ("system", system_prompt); ("user", question query) ] 150 (7 # 10)
     = Return response ->
     getattr response "choices" = Return (VList []) ->
     ask_ai P env str strip query log
     = (Raise (HTTPException 500
                 "Unexpected error with AI response: list index out of range"),
        log ++ [request])).
Proof.
  intros request Hkey. subst request.
  unfold ask_ai, try_except, ask_ai_body. rewrite Hkey.
  unfold bind, chat_completion_create, perform, lift, raise.
  split.
  - intros e ->. reflexivity.
  - intros response -> ->. reflexivity.
Qed.

(** The theorem above with a provider that is over its rate limit, and with
    one that answers without choices. *)
Lemma ask_ai_provider_failures_samples :
  api_key_missing (OPENAI_API_KEY with_key) = false /\
  ask_ai (chatting (Raise (OtherException "Rate limit reached")))
         with_key status_colon_detail strip_trimmed walk_home []
  = (Raise (HTTPException 500 "Unexpected error with AI response: Rate limit reached"),
     [walk_home_call]) /\
  ask_ai (chatting (Return (completion [])))
         with_key status_colon_detail strip_trimmed walk_home []
  = (Raise (HTTPException 500
              "Unexpected error with AI response: list index out of range"),
     [walk_home_call]).
Proof.
  split; [reflexivity |]. split.
  - exact (proj1 (ask_ai_provider_failures
                    (chatting (Raise (OtherException "Rate limit reached")))
                    with_key status_colon_detail strip_trimmed walk_home [] eq_refl)
                 (OtherException "Rate limit reached") eq_refl).
  - exact (proj2 (ask_ai_provider_failures
                    (chatting (Return (completion [])))
                    with_key status_colon_detail strip_trimmed walk_home [] eq_refl)
                 (completion []) eq_refl eq_refl).
Defined.

(** ** Where a 404 can come from *)

(** A lookup by key never raises an [IndexError]. *)
Lemma getitem_key_no_index_error v key e :
  getitem_key v key = Raise e -> forall msg, e <> IndexError msg.
Proof.
  destruct v; simpl; try (intros H msg; injection H as <-; discriminate).
  destruct (dict_get key fields); intros H msg; [discriminate H |].
  injection H as <-. discriminate.
Qed.

(** A string that is not empty has a first character. *)
Lemma chars_cons c rest : exists ch more, chars (String c rest) = ch :: more.
Proof.
  simpl. destruct (chars rest) as [| ch more]; [eauto |].
  destruct rest as [| c' rest']; [eauto |].
  destruct (continuation c'); eauto.
Qed.

(** Past the truth test of its [features], a reply never raises an
    [IndexError] on the way to its first feature's coordinates. *)
Lemma first_feature_coordinates_no_index_error x features :
  getitem_key x "features" = Return features ->
  truthy features = true ->
  forall e, first_feature_coordinates x = Raise e -> forall msg, e <> IndexError msg.
Proof.
  intros Hf Ht e. unfold first_feature_coordinates. rewrite Hf.
  cbn [rbind]. unfold getitem_index.
  destruct features as [ | b | n | x0 | s | items | fields ];
    try (simpl; intros H msg; injection H as <-; discriminate).
  - (* a string: its first character has no ['geometry'] *)
    destruct s as [| c rest]; [discriminate Ht |].
    destruct (chars_cons c rest) as (ch & more & ->).
    simpl. intros H msg. injection H as <-. discriminate.
  - destruct items as [| first rest]; [discriminate Ht |].
    cbn [nth_error rbind].
    destruct (getitem_key first "geometry") as [geometry | e'] eqn:Hg; cbn [rbind].
    + intro H. exact (getitem_key_no_index_error _ _ _ H).
    + intro H. injection H as <-. exact (getitem_key_no_index_error _ _ _ Hg).
Qed.

(** What line 52 found when it let the call go on. *)
Lemma missing_features_Return_false a b :
  missing_features a b = Return false ->
  exists fa fb,
    getitem_key a "features" = Return fa /\ truthy fa = true /\
    getitem_key b "features" = Return fb /\ truthy fb = true.
Proof.
  unfold missing_features.
  destruct (getitem_key a "features") as [fa |]; [| discriminate].
  cbn [rbind]. destruct (truthy fa) eqn:Hta; [| discriminate].
  cbn [negb]. cbv iota.
  destruct (getitem_key b "features") as [fb |]; [| discriminate].
  cbn [rbind]. destruct (truthy fb) eqn:Htb; [| discriminate].
  intros _. exists fa, fb. repeat split; first [reflexivity | assumption].
Qed.

Lemma missing_features_no_index_error a b e :
  missing_features a b = Raise e -> forall msg, e <> IndexError msg.
Proof.
  unfold missing_features.
  destruct (getitem_key a "features") as [fa | ea] eqn:Ha; cbn [rbind].
  - destruct (negb (truthy fa)); [discriminate |].
    destruct (getitem_key b "features") as [fb | eb] eqn:Hb; cbn [rbind];
      [discriminate |].
    intro H. injection H as <-. exact (getitem_key_no_index_error _ _ _ Hb).
  - intro H. injection H as <-. exact (getitem_key_no_index_error _ _ _ Ha).
Qed.

(** A comparison that fails raises a [TypeError]. *)
Lemma rich_compare_raises_type_error op a : forall b e,
  rich_compare op a b = Raise e -> exists msg, e = TypeError msg.
Proof.
  induction a as [ | ba | na | xa | sa | items IH | fields ] using value_items_ind;
    intros [ | bb | nb | xb | sb | others | fields' ] e; simpl; intro H;
    try discriminate H; try (injection H as <-; eauto).
  revert others H.
  induction IH as [| item items Hitem _ IHitems]; intros [| other others] H;
    try discriminate H.
  destruct (py_eq item other).
  - exact (IHitems others H).
  - exact (Hitem other e H).
Qed.

(** Where there is an item at index 1 there is one at index 0. *)
Lemma getitem_index_one_zero v x :
  getitem_index v 1 = Return x -> exists y, getitem_index v 0 = Return y.
Proof.
  unfold getitem_index. destruct v; try discriminate.
  - destruct (chars s) as [| ch more]; [discriminate | simpl; eauto].
  - destruct items as [| first rest]; [discriminate | simpl; eauto].
Qed.

(** The alerts raise an [IndexError] only for want of a latitude. *)
Lemma simulate_alerts_index_error origin_coords destination_coords msg :
  simulate_alerts origin_coords destination_coords = Raise (IndexError msg) ->
  (exists m, getitem_index origin_coords 1 = Raise (IndexError m)) \/
  (exists m, getitem_index destination_coords 1 = Raise (IndexError m)).
Proof.
  unfold simulate_alerts, py_gt, py_lt.
  destruct (getitem_index origin_coords 1) as [o1 | e] eqn:Ho1; cbn [rbind];
    [| intro H; injection H as ->; left; eauto].
  destruct (getitem_index destination_coords 1) as [d1 | e] eqn:Hd1; cbn [rbind];
    [| intro H; injection H as ->; right; eauto].
  destruct (getitem_index_one_zero _ _ Ho1) as (o0 & ->).
  destruct (getitem_index_one_zero _ _ Hd1) as (d0 & ->).
  destruct (rich_compare OpGt o1 d1) as [north | e] eqn:Hn; cbn [rbind].
  2:{ intro H. injection H as ->.
      destruct (rich_compare_raises_type_error _ _ _ _ Hn) as (m & Habs).
      discriminate Habs. }
  destruct (rich_compare OpLt o0 d0) as [west | e] eqn:Hw; cbn [rbind].
  2:{ intro H. injection H as ->.
      destruct (rich_compare_raises_type_error _ _ _ _ Hw) as (m & Habs).
      discriminate Habs. }
  destruct (rich_compare OpLt o1 d1) as [south | e] eqn:Hs; cbn [rbind].
  2:{ intro H. injection H as ->.
      destruct (rich_compare_raises_type_error _ _ _ _ Hs) as (m & Habs).
      discriminate Habs. }
  discriminate.
Qed.

(** X9.  A 404 that leaves [get_safe_route] always carries the detail "Could
    not find valid coordinates for the specified addresses.", never the
    details of lines 75 and 83, and it has one of two causes: a provider
    call (a search, or the routing call) raised an [IndexError] itself, or
    both searches and the router answered with first features in place and
    the origin's or the destination's coordinates have no item at index 1.
    No other reply of the providers leads to a 404. *)
Theorem not_found_has_two_causes P str req log detail :
  fst (get_safe_route P str req log) = Raise (HTTPException 404 detail) ->
  detail = "Could not find valid coordinates for the specified addresses." /\
  ((exists msg, ors_pelias_search P log (origin req) = Raise (IndexError msg)) \/
   (exists msg,
      ors_pelias_search P (log ++ [PeliasSearch (origin req)]) (destination req)
      = Raise (IndexError msg)) \/
   (exists origin_search destination_search origin_coords destination_coords,
      ors_pelias_search P log (origin req) = Return origin_search /\
      ors_pelias_search P (log ++ [PeliasSearch (origin req)]) (destination req)
        = Return destination_search /\
      first_feature_coordinates origin_search = Return origin_coords /\
      first_feature_coordinates destination_search = Return destination_coords /\
      ((exists msg,
          ors_directions P ((log ++ [PeliasSearch (origin req)])
                            ++ [PeliasSearch (destination req)])
                         [origin_coords; destination_coords] "driving-car" "geojson"
          = Raise (IndexError msg)) \/
       (exists routes route_coords,
          ors_directions P ((log ++ [PeliasSearch (origin req)])
                            ++ [PeliasSearch (destination req)])
                         [origin_coords; destination_coords] "driving-car" "geojson"
          = Return routes /\
          first_feature_coordinates routes = Return route_coords /\
          ((exists m, getitem_index origin_coords 1 = Raise (IndexError m)) \/
           (exists m, getitem_index destination_coords 1 = Raise (IndexError m))))))).
Proof.
  unfold get_safe_route, try_except.
  destruct (get_safe_route_body P req log) as [[resp | e] log1] eqn:Hbody;
    [discriminate |].
  intro H.
  assert (He : exists msg, e = IndexError msg /\ detail = not_found_coordinates).
  { destruct e; simpl in H; unfold raise in H; simpl in H;
      try (injection H as Hs _; discriminate Hs).
    injection H as <-. eauto. }
  destruct He as (msg & -> & ->). clear H.
  split; [reflexivity |].
  revert Hbody.
  unfold get_safe_route_body, bind, pelias_search, perform, lift.
  destruct (ors_pelias_search P log (origin req)) as [osearch | e] eqn:Ho.
  2:{ intro H. injection H as -> _. left. eauto. }
  destruct (ors_pelias_search P _ (destination req)) as [dsearch | e] eqn:Hd.
  2:{ intro H. injection H as -> _. right. left. eauto. }
  destruct (missing_features osearch dsearch) as [[|] | e] eqn:Hm.
  1:{ intro H. discriminate H. }
  2:{ intro H. injection H as -> _.
      exfalso. exact (missing_features_no_index_error _ _ _ Hm msg eq_refl). }
  destruct (missing_features_Return_false _ _ Hm) as (fa & fb & Hfa & Hta & Hfb & Htb).
  destruct (first_feature_coordinates osearch) as [ocoords | e] eqn:Hoc.
  2:{ intro H. injection H as -> _. exfalso.
      exact (first_feature_coordinates_no_index_error _ _ Hfa Hta _ Hoc msg eq_refl). }
  destruct (first_feature_coordinates dsearch) as [dcoords | e] eqn:Hdc.
  2:{ intro H. injection H as -> _. exfalso.
      exact (first_feature_coordinates_no_index_error _ _ Hfb Htb _ Hdc msg eq_refl). }
  intro H. right. right. exists osearch, dsearch, ocoords, dcoords.
  repeat (split; [first [reflexivity | assumption] |]).
  revert H. unfold try_except, directions, perform.
  destruct (ors_directions P _ _ _ _) as [routes | e] eqn:Hdir.
  2:{ intro H. left. destruct e; simpl in H; unfold raise in H;
        try (injection H as Habs _; discriminate Habs).
      - destruct (contains _ _); injection H as Habs _; discriminate Habs.
      - injection H as -> _. eauto. }
  destruct (getitem_key routes "features") as [rf | e] eqn:Hrf.
  2:{ intro H. injection H as -> _. exfalso.
      exact (getitem_key_no_index_error _ _ _ Hrf msg eq_refl). }
  destruct (truthy rf) eqn:Hrt; simpl negb; cbv iota.
  2:{ intro H. discriminate H. }
  destruct (first_feature_coordinates routes) as [rcoords | e] eqn:Hrc.
  2:{ intro H. injection H as -> _. exfalso.
      exact (first_feature_coordinates_no_index_error _ _ Hrf Hrt _ Hrc msg eq_refl). }
  destruct (simulate_alerts ocoords dcoords) as [alerts | e] eqn:Ha.
  1:{ intro H. discriminate H. }
  intro H. injection H as -> _. right.
  exists routes, rcoords. split; [reflexivity |]. split; [exact Hrc |].
  exact (simulate_alerts_index_error _ _ _ Ha).
Qed.

(** The theorem above at the sample request, with a first feature that
    carries a longitude only. *)
Lemma not_found_has_two_causes_sample :
  fst (get_safe_route short_coordinates status_colon_detail nyc [])
  = Raise (HTTPException 404
             "Could not find valid coordinates for the specified addresses.") /\
  ((exists msg,
      ors_pelias_search short_coordinates [] (origin nyc) = Raise (IndexError msg)) \/
   (exists msg,
      ors_pelias_search short_coordinates ([] ++ [PeliasSearch (origin nyc)])
                        (destination nyc)
      = Raise (IndexError msg)) \/
   (exists origin_search destination_search origin_coords destination_coords,
      ors_pelias_search short_coordinates [] (origin nyc) = Return origin_search /\
      ors_pelias_search short_coordinates ([] ++ [PeliasSearch (origin nyc)])
                        (destination nyc)
        = Return destination_search /\
      first_feature_coordinates origin_search = Return origin_coords /\
      first_feature_coordinates destination_search = Return destination_coords /\
      ((exists msg,
          ors_directions short_coordinates
                         (([] ++ [PeliasSearch (origin nyc)])
                          ++ [PeliasSearch (destination nyc)])
                         [origin_coords; destination_coords] "driving-car" "geojson"
          = Raise (IndexError msg)) \/
       (exists routes route_coords,
          ors_directions short_coordinates
                         (([] ++ [PeliasSearch (origin nyc)])
                          ++ [PeliasSearch (destination nyc)])
                         [origin_coords; destination_coords] "driving-car" "geojson"
          = Return routes /\
          first_feature_coordinates routes = Return route_coords /\
          ((exists m, getitem_index origin_coords 1 = Raise (IndexError m)) \/
           (exists m, getitem_index destination_coords 1 = Raise (IndexError m))))))).
Proof.
  assert (Hrun : fst (get_safe_route short_coordinates status_colon_detail nyc [])
                 = Raise (HTTPException 404
                            "Could not find valid coordinates for the specified addresses."))
    by (vm_compute; reflexivity).
  split; [exact Hrun |].
  exact (proj2 (not_found_has_two_causes short_coordinates status_colon_detail nyc []
                  "Could not find valid coordinates for the specified addresses." Hrun)).
Defined.

(** ** Coordinates out of bounds, and the return trip *)

(** X17.  When the origin's coordinates are a list with fewer than two items
    (no latitude), the lookup on line 91 raises an [IndexError] after the
    router has answered: the call fails with status 404 and the detail
    "Could not find valid coordinates for the specified addresses.", having
    made all three provider calls. *)
Theorem short_origin_coordinates_are_not_found P str req log
    origin_search destination_search items destination_coords routes route_coords :
  let log2 := (log ++ [PeliasSearch (origin req)]) ++ [PeliasSearch (destination req)] in
  let coordinates := [VList items; destination_coords] in
  ors_pelias_search P log (origin req) = Return origin_search ->
  ors_pelias_search P (log ++ [PeliasSearch (origin req)]) (destination req)
    = Return destination_search ->
  first_feature_coordinates origin_search = Return (VList items) ->
  first_feature_coordinates destination_search = Return destination_coords ->
  (length items < 2)%nat ->
  ors_directions P log2 coordinates "driving-car" "geojson" = Return routes ->
  first_feature_coordinates routes = Return route_coords ->
  get_safe_route P str req log
  = (Raise (HTTPException 404
              "Could not find valid coordinates for the specified addresses."),
     log2 ++ [Directions coordinates "driving-car" "geojson"]).
Proof.
  intros log2 coordinates Ho Hd Hoc Hdc Hshort Hdir Hrc.
  pose proof (missing_features_false _ _ _ _ Hoc Hdc) as Hm.
  destruct (first_feature_coordinates_truthy _ _ Hrc) as (rf & Hrf & Trf).
  assert (Ha : exists msg,
             simulate_alerts (VList items) destination_coords = Raise (IndexError msg)).
  { exists "list index out of range". unfold simulate_alerts, getitem_index.
    destruct items as [| x [| y items]]; simpl in Hshort; try reflexivity.
    lia. }
  destruct Ha as (msg & Ha).
  subst log2 coordinates.
  run_get_safe_route. rewrite Ho, Hd, Hm, Hoc, Hdc. run_directions.
  rewrite Hdir, Hrf, Trf. simpl negb. cbv iota.
  rewrite Hrc, Ha. reflexivity.
Qed.

(** The theorem above at the sample request, with a first feature that
    carries a longitude only. *)
Lemma short_origin_coordinates_are_not_found_sample :
  (length [VFloat (-739857 # 10000)] < 2)%nat /\
  get_safe_route short_coordinates status_colon_detail nyc []
  = (Raise (HTTPException 404
              "Could not find valid coordinates for the specified addresses."),
     [ PeliasSearch "Times Square, NYC"; PeliasSearch "Central Park, NYC";
       Directions [VList [VFloat (-739857 # 10000)]; central_park]
                  "driving-car" "geojson" ]).
Proof.
  assert (Hshort : (length [VFloat (-739857 # 10000)] < 2)%nat) by (simpl; lia).
  split; [exact Hshort |].
  exact (short_origin_coordinates_are_not_found short_coordinates status_colon_detail
           nyc []
           (collection [feature (VList [VFloat (-739857 # 10000)])])
           (collection [feature central_park])
           [VFloat (-739857 # 10000)] central_park (collection [feature line]) line
           eq_refl eq_refl eq_refl eq_refl Hshort eq_refl eq_refl).
Defined.

(** X18.  For coordinates that start with numbers, the alerts of the return
    trip mirror those of the trip: the trip counts 3 police stations exactly
    when the return trip has a "High" crowd density, and the other way
    round; and the two trips never both count 5 public facilities. *)
Theorem return_trip_mirrors_alerts olon olat orest dlon dlat drest (x0 y0 x1 y1 : Q) :
  as_number olon = Some x0 -> as_number olat = Some y0 ->
  as_number dlon = Some x1 -> as_number dlat = Some y1 ->
  exists police facilities density police' facilities' density',
    simulate_alerts (VList (olon :: olat :: orest)) (VList (dlon :: dlat :: drest))
    = Return (VDict [ ("police_stations", VInt police);
                      ("public_facilities", VInt facilities);
                      ("crowd_density", VStr density) ]) /\
    simulate_alerts (VList (dlon :: dlat :: drest)) (VList (olon :: olat :: orest))
    = Return (VDict [ ("police_stations", VInt police');
                      ("public_facilities", VInt facilities');
                      ("crowd_density", VStr density') ]) /\
    (police = 3%Z <-> density' = "High") /\
    (density = "High" <-> police' = 3%Z) /\
    ~ (facilities = 5%Z /\ facilities' = 5%Z).
Proof.
  intros Hx0 Hy0 Hx1 Hy1.
  do 6 eexists.
  split; [exact (simulate_alerts_numbers _ _ orest _ _ drest _ _ _ _ Hx0 Hy0 Hx1 Hy1) |].
  split; [exact (simulate_alerts_numbers _ _ drest _ _ orest _ _ _ _ Hx1 Hy1 Hx0 Hy0) |].
  rewrite <- (Qcompare_antisym y0 y1), <- (Qcompare_antisym x0 x1).
  destruct (Qcompare y0 y1), (Qcompare x0 x1); simpl;
    repeat split;
    try (intros [H1 H2]; first [discriminate H1 | discriminate H2]);
    intros; try discriminate; reflexivity.
Qed.

(** The theorem above for the two sample points. *)
Lemma return_trip_mirrors_alerts_nyc :
  exists police facilities density police' facilities' density',
    simulate_alerts times_square central_park
    = Return (VDict [ ("police_stations", VInt police);
                      ("public_facilities", VInt facilities);
                      ("crowd_density", VStr density) ]) /\
    simulate_alerts central_park times_square
    = Return (VDict [ ("police_stations", VInt police');
                      ("public_facilities", VInt facilities');
                      ("crowd_density", VStr density') ]) /\
    (police = 3%Z <-> density' = "High") /\
    (density = "High" <-> police' = 3%Z) /\
    ~ (facilities = 5%Z /\ facilities' = 5%Z).
Proof.
  exact (return_trip_mirrors_alerts
           (VFloat (-739857 # 10000)) (VFloat (407484 # 10000)) []
           (VFloat (-739654 # 10000)) (VFloat (407829 # 10000)) []
           (-739857 # 10000) (407484 # 10000) (-739654 # 10000) (407829 # 10000)
           eq_refl eq_refl eq_refl eq_refl).
Defined.
